(** * Annotation export engine of labelme/app.py

    A shallow embedding of the export slots of [MainWindow]
    ([onExportPixelMap], [exportDetectionVOC], [exportSegmentationVOC],
    [onExportVOC], [onExportCOCO]) together with [getAllAnnotations],
    and the properties of the export specification stated against it.

    Conventions of the embedding:
    - a Python [dict] is an insertion-ordered association list ([dict_set]
      updates an existing key in place and appends a new one);
    - the output directory is a finite map from paths (relative to
      [self.output_dir]) to nodes, threaded through a small state and
      exception monad;
    - a point coordinate is a Python number, an [int] or a binary64
      [float], compared as Python compares them; where the source writes
      [str(x)] of a coordinate the model keeps [x] itself, [str] being
      one-to-one on numbers (an int prints without a fraction or exponent,
      a float always with one);
    - [uuid.uuid1()] is a counter of synthesized keys;
    - [utils.shape_to_mask] and [utils.annotations_to_label] live in
      labelme/utils, outside app.py, and are parameters of the export
      functions;
    - a slot is entered with the output directory chosen, the image list
      settled by the dialog and every label file readable. *)

From stdpp Require Import gmap strings list fin_maps pretty.
From Stdlib Require Import ZArith SpecFloat.

Open Scope string_scope.
Open Scope list_scope.
Open Scope Z_scope.

(** ** Insertion-ordered dictionaries *)

Section Dict.
Context {K V : Type} `{EqDecision K}.

Fixpoint dict_get (k : K) (d : list (K * V)) : option V :=
  match d with
  | [] => None
  | (k', v) :: r => if decide (k = k') then Some v else dict_get k r
  end.

(** [d[k] = v]: an existing key keeps its position, a new key goes last. *)
Fixpoint dict_set (k : K) (v : V) (d : list (K * V)) : list (K * V) :=
  match d with
  | [] => [(k, v)]
  | (k', v') :: r =>
      if decide (k = k') then (k', v) :: r else (k', v') :: dict_set k v r
  end.

Definition dict_keys (d : list (K * V)) : list K := map fst d.

(** [k in xs] for a Python list. *)
Definition py_in (k : K) (xs : list K) : bool := bool_decide (k ∈ xs).
End Dict.

(** ** Numbers *)

(** A coordinate as [json.load] hands it over: a Python [int] or a
    [float] (IEEE 754 binary64, with its signed zeros, infinities and
    NaN). *)
Inductive Num :=
  | PyInt (z : Z)
  | PyFloat (f : spec_float).

Coercion PyInt : Z >-> Num.

#[global] Instance spec_float_eq_dec : EqDecision spec_float.
Proof. solve_decision. Defined.

#[global] Instance Num_eq_dec : EqDecision Num.
Proof. solve_decision. Defined.

(** Python compares an [int] with a [float] by their exact values: the
    integer [z] against the finite float [(-1)^s * m * 2^e]. *)
Definition int_float_compare (z : Z) (f : spec_float) : option comparison :=
  match f with
  | S754_nan => None
  | S754_infinity s => Some (if s then Gt else Lt)
  | S754_zero _ => Some (z ?= 0)
  | S754_finite s m e =>
      let v := if s then Z.neg m else Z.pos m in
      Some (if 0 <=? e then z ?= v * 2 ^ e else z * 2 ^ (- e) ?= v)
  end.

Definition num_compare (a b : Num) : option comparison :=
  match a, b with
  | PyInt x, PyInt y => Some (x ?= y)
  | PyFloat f, PyFloat g => SFcompare f g
  | PyInt x, PyFloat g => int_float_compare x g
  | PyFloat f, PyInt y => CompOpp <$> int_float_compare y f
  end.

(** [a < b]; a comparison with NaN is false. *)
Definition py_lt (a b : Num) : bool :=
  match num_compare a b with
  | Some Lt => true
  | _ => false
  end.

(** [float(z)]: the integer rounded to the nearest binary64. *)
Definition py_float (z : Z) : spec_float :=
  binary_normalize 53 1024 z 0 false.

(** ** Data model *)

Definition Point : Type := Num * Num.

(** The point [[x, y]]. *)
Definition pt (x y : Num) : Point := (x, y).

Record Annotation := mkAnnotation {
  label : string;
  shape_type : string;
  points : list Point;
  group_id : option Z
}.

(** A label file as [LabelFile(self.getLabelFile(imagename))] yields it,
    with the image array's shape; [base] is
    [osp.splitext(osp.basename(imagename))[0]]. *)
Record LabelFile := mkLabelFile {
  base : string;
  img_height : nat;
  img_width : nat;
  img_depth : nat;
  annotations : list Annotation
}.

Definition img_shape (lf : LabelFile) : nat * nat * nat :=
  (img_height lf, img_width lf, img_depth lf).

(** [getAllAnnotations]: [annotations.extend(labelFile.annotations)] for
    every image of the list, in list order. *)
Definition getAllAnnotations (imageList : list LabelFile) : list Annotation :=
  fold_left (fun acc lf => acc ++ annotations lf) imageList [].

Definition is_rectangle (a : Annotation) : bool :=
  String.eqb (shape_type a) "rectangle".

Definition is_polygon (a : Annotation) : bool :=
  String.eqb (shape_type a) "polygon".

(** ** Class registry *)

Definition seed_classes : list (string * Z) :=
  [("__ignore__", -1); ("_background_", 0)].

(** One iteration of the registry loop. *)
Definition register_class (classes : list (string * Z)) (a : Annotation)
  : list (string * Z) :=
  let class_name := label a in
  if py_in class_name (dict_keys classes ++ ["__ignore__"; "_background_"])
  then classes
  else dict_set class_name (Z.of_nat (length classes) - 1) classes.

Definition build_classes (anns : list Annotation) : list (string * Z) :=
  fold_left register_class anns seed_classes.

(** [class_names = list(classes.keys()); del class_names[0]] *)
Definition class_names_of (classes : list (string * Z)) : list string :=
  tail (dict_keys classes).

(** The registry as the specification words it: the two seeds, then the
    labels in first-encounter order numbered 1, 2, 3, ... *)
Fixpoint first_encounters (seen : list string) (labels : list string)
  : list string :=
  match labels with
  | [] => []
  | l :: r =>
      if bool_decide (l ∈ seen) then first_encounters seen r
      else l :: first_encounters (l :: seen) r
  end.

Definition number_from (start : nat) (labels : list string)
  : list (string * Z) :=
  zip labels (map Z.of_nat (seq start (length labels))).

Definition spec_registry (labels : list string) : list (string * Z) :=
  seed_classes
    ++ number_from 1 (first_encounters ["__ignore__"; "_background_"] labels).

(** ** VOC format selection *)

Inductive AnnotationType := NoType | BboxDetection | Segmentation.

(** The [if all(...) ... elif any(...)] chain of [onExportVOC]. *)
Definition select_annotation_type (anns : list Annotation) : AnnotationType :=
  if forallb is_rectangle anns then BboxDetection
  else if existsb is_polygon anns then Segmentation
  else NoType.

(** ** Rasters and file contents *)

(** A boolean mask and an integer label raster, as lists of rows. *)
Abbreviation Mask := (list (list bool)).
Abbreviation Raster := (list (list Z)).

Definition mask_get (m : Mask) (y x : nat) : bool :=
  match m !! y with
  | Some row => default false (row !! x)
  | None => false
  end.

Definition raster_get (r : Raster) (y x : nat) : option Z :=
  row ← r !! y; row !! x.

(** [<object>] element of a VOC annotation document; a box entry is the
    number whose [str(...)] is the text of the element. *)
Record VocObject := mkVocObject {
  obj_name : string;
  obj_xmin : Num;
  obj_ymin : Num;
  obj_xmax : Num;
  obj_ymax : Num
}.

Record VocXml := mkVocXml {
  xml_filename : string;
  xml_height : string;
  xml_width : string;
  xml_depth : string;
  xml_objects : list VocObject
}.

Record CocoImage := mkCocoImage {
  im_file_name : string;
  im_height : nat;
  im_width : nat;
  im_id : nat
}.

Record CocoAnnotation := mkCocoAnnotation {
  an_id : nat;
  an_image_id : nat;
  an_category_id : Z;
  an_segmentation : list (list Num);
  an_area : nat;
  an_bbox : list nat;
  an_iscrowd : nat
}.

Record CocoCategory := mkCocoCategory {
  cat_supercategory : option string;
  cat_id : Z;
  cat_name : string
}.

(** The [data] dict of [onExportCOCO] ([info], [licenses] and [type] are
    constant and left out). *)
Record CocoData := mkCocoData {
  images : list CocoImage;
  coco_annotations : list CocoAnnotation;
  categories : list CocoCategory
}.

Inductive Content :=
  | ImageFile (shape : nat * nat * nat)
  | VocXmlFile (x : VocXml)
  | BboxVizFile (labels : list Z) (bboxes : list (Num * Num * Num * Num))
      (captions : list string)
  | LabelPngFile (lbl : Raster)
  | NpyFile (lbl : Raster)
  | LabelVizFile (lbl : Raster) (label_names : list string)
  | MaskVizFile (labels : list Z) (captions : list string) (masks : list Mask)
  | CocoJsonFile (d : CocoData).

Inductive Node := Dir | File (c : Content).

(** ** The effect monad: output tree state plus Python exceptions *)

Definition path : Type := list string.

(** Where a [ValueError] comes from: unpacking the two corner points,
    unpacking the empty [zip()], or [max] of an empty array. *)
Inductive value_error := UnpackPoints | UnpackZip | MaxOfEmpty.

Inductive exn :=
  | FileExistsError
  | KeyError
  | ValueError (why : value_error)
  | AssertionError.

Inductive outcome (A : Type) :=
  | Ok (a : A)
  | Raised (e : exn).
Arguments Ok {A} a.
Arguments Raised {A} e.

Definition M (A : Type) : Type :=
  gmap path Node → outcome A * gmap path Node.

#[global] Instance M_ret : MRet M := λ A a s, (Ok a, s).

#[global] Instance M_bind : MBind M := λ A B f m s,
  match m s with
  | (Ok a, s') => f a s'
  | (Raised e, s') => (Raised e, s')
  end.

Definition raise {A : Type} (e : exn) : M A := λ s, (Raised e, s).

(** A pure computation that may raise, run inside [M]. *)
Definition lift {A : Type} (o : outcome A) : M A := λ s, (o, s).

Definition outcome_bind {A B : Type} (o : outcome A) (f : A → outcome B)
  : outcome B :=
  match o with
  | Ok a => f a
  | Raised e => Raised e
  end.

(** [if b: body] *)
Definition when (b : bool) (body : M ()) : M () :=
  if b then body else mret ().

(** [for x in xs: body(x)] *)
Fixpoint for_each {A : Type} (body : A → M ()) (xs : list A) : M () :=
  match xs with
  | [] => mret ()
  | x :: r => body x ;; for_each body r
  end.

(** [for x in xs: acc = body(acc, x)] *)
Fixpoint for_fold {A S : Type} (body : S → A → M S) (xs : list A) (acc : S)
  : M S :=
  match xs with
  | [] => mret acc
  | x :: r => acc' ← body acc x; for_fold body r acc'
  end.

Definition under (p q : path) : Prop := p `prefix_of` q.

Definition isdir (p : path) : M bool := λ s,
  (Ok match s !! p with Some Dir => true | _ => false end, s).

(** [shutil.rmtree(p)]: [p] and everything below it disappear. *)
Definition rmtree (p : path) : M () := λ s,
  (Ok (), filter (λ kv, ¬ under p kv.1) s).

(** [os.makedirs(p)] with every parent already present. *)
Definition makedirs (p : path) : M () := λ s,
  match s !! p with
  | Some _ => (Raised FileExistsError, s)
  | None => (Ok (), <[p := Dir]> s)
  end.

(** Writing a file into a directory this export has just created. *)
Definition write_file (p : path) (c : Content) : M () := λ s,
  (Ok (), <[p := File c]> s).

(** [imgviz.instances2rgb(...)] followed by [imgviz.io.imsave]: the
    library asserts that no label id is negative before it draws. *)
Definition save_instances_viz (p : path) (labels : list Z) (c : Content)
  : M () :=
  if forallb (λ l, 0 <=? l) labels then write_file p c
  else raise AssertionError.

(** What an export slot returns. *)
Inductive retval := RetNone | RetFalse.

(** ** VOC detection export *)

(** [sorted([a, b])]: the sort exchanges the two items when [b < a] and
    leaves them as they stand otherwise. *)
Definition sorted2 (a b : Num) : Num * Num :=
  if py_lt b a then (b, a) else (a, b).

(** What one iteration of the annotation loop of [exportDetectionVOC]
    appends to [bboxes], [labels], [captions] and to the document. *)
Record DetectionRow := mkDetectionRow {
  row_bbox : Num * Num * Num * Num;
  row_label : Z;
  row_caption : string;
  row_object : VocObject
}.

Definition detection_row (classes : list (string * Z)) (a : Annotation)
  : outcome DetectionRow :=
  let class_name := label a in
  match dict_get class_name classes with
  | None => Raised KeyError
  | Some class_id =>
      match points a with
      | [(x0, y0); (x1, y1)] =>
          let '(xmin, xmax) := sorted2 x0 x1 in
          let '(ymin, ymax) := sorted2 y0 y1 in
          Ok {| row_bbox := (ymin, xmin, ymax, xmax);
                row_label := class_id;
                row_caption := class_name;
                row_object :=
                  {| obj_name := label a;
                     obj_xmin := xmin;
                     obj_ymin := ymin;
                     obj_xmax := xmax;
                     obj_ymax := ymax |} |}
      | _ => Raised (ValueError UnpackPoints)
      end
  end.

Fixpoint detection_rows (classes : list (string * Z)) (anns : list Annotation)
  : outcome (list DetectionRow) :=
  match anns with
  | [] => Ok []
  | a :: r =>
      outcome_bind (detection_row classes a) (λ row,
      outcome_bind (detection_rows classes r) (λ rows,
      Ok (row :: rows)))
  end.

Definition detection_xml (lf : LabelFile) (rows : list DetectionRow) : VocXml :=
  {| xml_filename := base lf +:+ ".jpg";
     xml_height := pretty (img_height lf);
     xml_width := pretty (img_width lf);
     xml_depth := pretty (img_depth lf);
     xml_objects := map row_object rows |}.

Definition detection_image (classes : list (string * Z)) (lf : LabelFile)
  : M () :=
  let out_img_file := ["VOC"; "JPEGImages"; base lf +:+ ".jpg"] in
  let out_xml_file := ["VOC"; "Annotations"; base lf +:+ ".xml"] in
  let out_viz_file := ["VOC"; "AnnotationsVisualization"; base lf +:+ ".jpg"] in
  write_file out_img_file (ImageFile (img_shape lf)) ;;
  rows ← lift (detection_rows classes (annotations lf));
  save_instances_viz out_viz_file (map row_label rows)
    (BboxVizFile (map row_label rows) (map row_bbox rows)
       (map row_caption rows)) ;;
  write_file out_xml_file (VocXmlFile (detection_xml lf rows)).

Definition exportDetectionVOC (imageList : list LabelFile)
    (classes : list (string * Z)) : M () :=
  makedirs ["VOC"] ;;
  makedirs ["VOC"; "JPEGImages"] ;;
  makedirs ["VOC"; "Annotations"] ;;
  makedirs ["VOC"; "AnnotationsVisualization"] ;;
  for_each (detection_image classes) imageList.

(** ** pycocotools mask operations

    [cocomask.encode] run-length-encodes the mask read in column-major
    order, the first run counting zeros; [cocomask.area] is the number of
    set pixels; [cocomask.toBbox] is the tight box [[x, y, w, h]] around
    them, all zero for an empty mask. *)

Record RLE := mkRLE {
  rle_height : nat;
  rle_width : nat;
  rle_counts : list nat
}.

Definition mask_height (m : Mask) : nat := length m.
Definition mask_width (m : Mask) : nat :=
  match m with
  | [] => 0%nat
  | row :: _ => length row
  end.

Definition column_major (m : Mask) : list bool :=
  flat_map (λ x, map (λ y, mask_get m y x) (seq 0 (mask_height m)))
    (seq 0 (mask_width m)).

Fixpoint rle_runs (cur : bool) (n : nat) (bits : list bool) : list nat :=
  match bits with
  | [] => [n]
  | b :: r =>
      if Bool.eqb b cur then rle_runs cur (S n) r else n :: rle_runs b 1 r
  end.

Definition cocomask_encode (m : Mask) : RLE :=
  {| rle_height := mask_height m;
     rle_width := mask_width m;
     rle_counts := rle_runs false 0 (column_major m) |}.

(** Column-major positions of the set pixels of a run-length encoding. *)
Fixpoint rle_ones (cur : bool) (pos : nat) (counts : list nat) : list nat :=
  match counts with
  | [] => []
  | c :: r =>
      (if cur then seq pos c else []) ++ rle_ones (negb cur) (pos + c) r
  end.

Definition cocomask_area (r : RLE) : nat :=
  length (rle_ones false 0 (rle_counts r)).

Definition list_min (l : list nat) : nat := foldr Nat.min (hd 0%nat l) l.
Definition list_max (l : list nat) : nat := foldr Nat.max 0%nat l.

Definition cocomask_toBbox (r : RLE) : list nat :=
  let ones := rle_ones false 0 (rle_counts r) in
  match ones with
  | [] => [0; 0; 0; 0]%nat
  | _ =>
      let xs := map (λ p, p / rle_height r)%nat ones in
      let ys := map (λ p, p mod rle_height r)%nat ones in
      [list_min xs; list_min ys;
       S (list_max xs - list_min xs); S (list_max ys - list_min ys)]%nat
  end.

(** ** Instance keys *)

(** [group_id] as found in the annotation, or the [uuid.uuid1()] drawn for
    an annotation without one. *)
Inductive GroupKey :=
  | Given (g : Z)
  | Fresh (n : nat).

#[global] Instance GroupKey_eq_dec : EqDecision GroupKey.
Proof. solve_decision. Defined.

Definition InstanceKey : Type := string * GroupKey.

(** [masks[instance] | mask] on arrays of one shape. *)
Definition mask_or (a b : Mask) : Mask := zip_with (zip_with orb) a b.

(** [ins[cls == -1] = 0] *)
Definition zero_where_ignored (cls ins : Raster) : Raster :=
  imap (λ y row,
    imap (λ x i, if bool_decide (raster_get cls y x = Some (-1)) then 0 else i)
      row) ins.

(** [max(np.unique(ins))], [None] for an array without elements. *)
Definition raster_max (r : Raster) : option Z :=
  match concat r with
  | [] => None
  | v :: vs => Some (foldr Z.max v vs)
  end.

(** ** The export slots *)

Section ExportSlots.

(** [utils.annotations_to_label(img_shape, annotations, classes)], giving
    the class raster and the instance raster. *)
Variable annotations_to_label :
  nat * nat * nat → list Annotation → list (string * Z) → Raster * Raster.

(** [utils.shape_to_mask(img.shape[:2], points, shape_type)] *)
Variable shape_to_mask : nat * nat → list Point → string → Mask.

(** *** Pixel map *)

Definition pixelmap_image (classes : list (string * Z)) (lf : LabelFile)
  : M () :=
  let out_img_file := ["PixelMap"; base lf +:+ ".png"] in
  let lbl := annotations_to_label (img_shape lf) (annotations lf) classes in
  let cls := lbl.1 in
  let ins := zero_where_ignored cls lbl.2 in
  write_file out_img_file (LabelPngFile cls).

Definition onExportPixelMap (imageList : list LabelFile) : M retval :=
  let annotations := getAllAnnotations imageList in
  if forallb is_rectangle annotations then mret RetFalse
  else
    let classes := build_classes annotations in
    d ← isdir ["PixelMap"];
    when d (rmtree ["PixelMap"]) ;;
    makedirs ["PixelMap"] ;;
    for_each (pixelmap_image classes) imageList ;;
    mret RetNone.

(** *** VOC segmentation *)

Definition segmentation_image (classes : list (string * Z))
    (class_names : list string) (lf : LabelFile) : M () :=
  let out_img_file := ["VOC"; "JPEGImages"; base lf +:+ ".jpg"] in
  let out_cls_file := ["VOC"; "SegmentationClass"; base lf +:+ ".npy"] in
  let out_clsp_file := ["VOC"; "SegmentationClassPNG"; base lf +:+ ".png"] in
  let out_clsv_file :=
    ["VOC"; "SegmentationClassVisualization"; base lf +:+ ".jpg"] in
  let out_ins_file := ["VOC"; "SegmentationObject"; base lf +:+ ".npy"] in
  let out_insp_file := ["VOC"; "SegmentationObjectPNG"; base lf +:+ ".png"] in
  let out_insv_file :=
    ["VOC"; "SegmentationObjectVisualization"; base lf +:+ ".jpg"] in
  write_file out_img_file (ImageFile (img_shape lf)) ;;
  let lbl := annotations_to_label (img_shape lf) (annotations lf) classes in
  let cls := lbl.1 in
  let ins := zero_where_ignored cls lbl.2 in
  write_file out_clsp_file (LabelPngFile cls) ;;
  write_file out_cls_file (NpyFile cls) ;;
  write_file out_clsv_file (LabelVizFile cls class_names) ;;
  write_file out_insp_file (LabelPngFile ins) ;;
  write_file out_ins_file (NpyFile ins) ;;
  match raster_max ins with
  | None => raise (ValueError MaxOfEmpty)
  | Some top =>
      let instance_names := map pretty (seq 0 (Z.to_nat (top + 1))) in
      write_file out_insv_file (LabelVizFile ins instance_names)
  end.

Definition exportSegmentationVOC (imageList : list LabelFile)
    (classes : list (string * Z)) : M () :=
  makedirs ["VOC"] ;;
  makedirs ["VOC"; "JPEGImages"] ;;
  makedirs ["VOC"; "SegmentationClass"] ;;
  makedirs ["VOC"; "SegmentationClassPNG"] ;;
  makedirs ["VOC"; "SegmentationClassVisualization"] ;;
  makedirs ["VOC"; "SegmentationObject"] ;;
  makedirs ["VOC"; "SegmentationObjectPNG"] ;;
  makedirs ["VOC"; "SegmentationObjectVisualization"] ;;
  let class_names := class_names_of classes in
  for_each (segmentation_image classes class_names) imageList.

(** *** VOC dispatch *)

Definition onExportVOC (imageList : list LabelFile) : M retval :=
  let annotations := getAllAnnotations imageList in
  let AnnotationType := select_annotation_type annotations in
  let classes := build_classes annotations in
  d ← isdir ["VOC"];
  when d (rmtree ["VOC"]) ;;
  match AnnotationType with
  | BboxDetection => exportDetectionVOC imageList classes
  | Segmentation => exportSegmentationVOC imageList classes
  | NoType => mret ()
  end ;;
  mret RetNone.

(** *** COCO *)

(** [np.asarray(points).flatten().tolist()]: an array of ints (taken
    within the 64-bit range of numpy) gives the ints back; as soon as one
    coordinate is a float the array is of floats, every int converted. *)
Definition is_int (n : Num) : bool :=
  match n with PyInt _ => true | PyFloat _ => false end.

Definition to_float (n : Num) : Num :=
  match n with PyInt z => PyFloat (py_float z) | PyFloat _ => n end.

Definition np_flatten (pts : list Point) : list Num :=
  let flat := flat_map (λ p, [p.1; p.2]) pts in
  if forallb is_int flat then flat else map to_float flat.

(** The [segmentation] entry of one shape: the eight numbers of the
    axis-sorted box for a rectangle, the flattened points otherwise. *)
Definition segmentation_points (a : Annotation) : outcome (list Num) :=
  if is_rectangle a then
    match points a with
    | [(x1, y1); (x2, y2)] =>
        let '(x1, x2) := sorted2 x1 x2 in
        let '(y1, y2) := sorted2 y1 y2 in
        Ok [x1; y1; x2; y1; x2; y2; x1; y2]
    | _ => Raised (ValueError UnpackPoints)
    end
  else Ok (np_flatten (points a)).

(** State of the annotation loop of one image: [masks], [segmentations]
    and the count of keys drawn so far. *)
Record ShapeAcc := mkShapeAcc {
  acc_masks : list (InstanceKey * Mask);
  acc_segmentations : list (InstanceKey * list (list Num));
  acc_clock : nat
}.

(** The instance key of a shape, and the clock after drawing it. *)
Definition instance_of (clock : nat) (a : Annotation) : InstanceKey * nat :=
  match group_id a with
  | Some g => ((label a, Given g), clock)
  | None => ((label a, Fresh clock), S clock)
  end.

(** [segmentations[instance].append(points)] on a [defaultdict(list)] *)
Definition dict_append (k : InstanceKey) (v : list Num)
    (d : list (InstanceKey * list (list Num)))
  : list (InstanceKey * list (list Num)) :=
  dict_set k (default [] (dict_get k d) ++ [v]) d.

Definition coco_shape (hw : nat * nat) (acc : ShapeAcc) (a : Annotation)
  : outcome ShapeAcc :=
  let mask := shape_to_mask hw (points a) (shape_type a) in
  let '(instance, clock) := instance_of (acc_clock acc) a in
  let masks :=
    match dict_get instance (acc_masks acc) with
    | Some old => dict_set instance (mask_or old mask) (acc_masks acc)
    | None => dict_set instance mask (acc_masks acc)
    end in
  outcome_bind (segmentation_points a) (λ pts,
  Ok {| acc_masks := masks;
        acc_segmentations := dict_append instance pts (acc_segmentations acc);
        acc_clock := clock |}).

Fixpoint coco_shapes (hw : nat * nat) (acc : ShapeAcc) (anns : list Annotation)
  : outcome ShapeAcc :=
  match anns with
  | [] => Ok acc
  | a :: r => outcome_bind (coco_shape hw acc a) (λ acc', coco_shapes hw acc' r)
  end.

(** One iteration of [for instance, mask in masks.items()]. *)
Definition coco_instance (classes : list (string * Z))
    (class_names : list string)
    (segmentations : list (InstanceKey * list (list Num))) (image_id : nat)
    (anns : list CocoAnnotation) (entry : InstanceKey * Mask)
  : outcome (list CocoAnnotation) :=
  let '(instance, mask) := entry in
  let class_name := instance.1 in
  if negb (py_in class_name class_names) then Ok anns
  else
    match dict_get class_name classes with
    | None => Raised KeyError
    | Some class_id =>
        let rle := cocomask_encode mask in
        let area := cocomask_area rle in
        let bbox := cocomask_toBbox rle in
        match dict_get instance segmentations with
        | None => Raised KeyError
        | Some seg =>
            Ok (anns ++ [ {| an_id := length anns;
                             an_image_id := image_id;
                             an_category_id := class_id;
                             an_segmentation := seg;
                             an_area := area;
                             an_bbox := bbox;
                             an_iscrowd := 0 |} ])
        end
    end.

Fixpoint coco_instances (classes : list (string * Z))
    (class_names : list string)
    (segmentations : list (InstanceKey * list (list Num))) (image_id : nat)
    (anns : list CocoAnnotation) (entries : list (InstanceKey * Mask))
  : outcome (list CocoAnnotation) :=
  match entries with
  | [] => Ok anns
  | e :: r =>
      outcome_bind
        (coco_instance classes class_names segmentations image_id anns e)
        (λ anns',
           coco_instances classes class_names segmentations image_id anns' r)
  end.

(** The list comprehension whose rows are handed to [zip]. *)
Fixpoint retained_instances (classes : list (string * Z))
    (class_names : list string) (entries : list (InstanceKey * Mask))
  : outcome (list (Z * string * Mask)) :=
  match entries with
  | [] => Ok []
  | ((cnm, gid), msk) :: r =>
      if py_in cnm class_names then
        match dict_get cnm classes with
        | None => Raised KeyError
        | Some class_id =>
            outcome_bind (retained_instances classes class_names r)
              (λ rest, Ok ((class_id, cnm, msk) :: rest))
        end
      else retained_instances classes class_names r
  end.

(** [labels, captions, masks = zip] of the rows: unpacking the empty
    [zip()] into three names raises [ValueError]. *)
Definition unzip3 (rows : list (Z * string * Mask))
  : outcome (list Z * list string * list Mask) :=
  match rows with
  | [] => Raised (ValueError UnpackZip)
  | _ => Ok (map (λ r, r.1.1) rows, map (λ r, r.1.2) rows, map (λ r, r.2) rows)
  end.

Definition empty_data : CocoData :=
  {| images := []; coco_annotations := []; categories := [] |}.

(** The body of [for image_id, imagename in enumerate(imageList)]; the
    state carried from image to image is [data] and the key clock. *)
Definition coco_image (classes : list (string * Z)) (class_names : list string)
    (st : CocoData * nat) (entry : nat * LabelFile) : M (CocoData * nat) :=
  let data := st.1 in
  let image_id := entry.1 in
  let lf := entry.2 in
  let out_ann_file := ["COCO"; "annotations.json"] in
  let out_img_file := ["COCO"; "JPEGImages"; base lf +:+ ".jpg"] in
  let out_viz_file := ["COCO"; "Visualization"; base lf +:+ ".jpg"] in
  write_file out_img_file (ImageFile (img_shape lf)) ;;
  let data :=
    {| images := images data ++
         [ {| im_file_name := "JPEGImages/" +:+ base lf +:+ ".jpg";
              im_height := img_height lf;
              im_width := img_width lf;
              im_id := image_id |} ];
       coco_annotations := coco_annotations data;
       categories := categories data |} in
  acc ← lift (coco_shapes (img_height lf, img_width lf)
                {| acc_masks := []; acc_segmentations := []; acc_clock := st.2 |}
                (annotations lf));
  anns ← lift (coco_instances classes class_names (acc_segmentations acc)
                 image_id (coco_annotations data) (acc_masks acc));
  let data :=
    {| images := images data;
       coco_annotations := anns;
       categories := categories data |} in
  rows ← lift (retained_instances classes class_names (acc_masks acc));
  cols ← lift (unzip3 rows);
  save_instances_viz out_viz_file cols.1.1
    (MaskVizFile cols.1.1 cols.1.2 cols.2) ;;
  write_file out_ann_file (CocoJsonFile data) ;;
  mret (data, acc_clock acc).

Definition enumerate {A : Type} (xs : list A) : list (nat * A) :=
  zip (seq 0 (length xs)) xs.

(** The directory set-up and the image loop of [onExportCOCO], returning
    the final [data]. *)
Definition coco_export (imageList : list LabelFile)
    (classes : list (string * Z)) : M (CocoData * nat) :=
  let class_names := class_names_of classes in
  d ← isdir ["COCO"];
  when d (rmtree ["COCO"]) ;;
  makedirs ["COCO"] ;;
  makedirs ["COCO"; "JPEGImages"] ;;
  makedirs ["COCO"; "Visualization"] ;;
  for_fold (coco_image classes class_names) (enumerate imageList)
    (empty_data, 0%nat).

Definition onExportCOCO (imageList : list LabelFile) : M retval :=
  let annotations := getAllAnnotations imageList in
  if forallb is_rectangle annotations then mret RetFalse
  else
    let classes := build_classes annotations in
    coco_export imageList classes ;;
    mret RetNone.

End ExportSlots.

(** ** The helpers of labelme/utils, from the specification *)

(** Modelled from the spec: [utils.shape_to_mask] is defined in
    labelme/utils, not in app.py.  A rectangle fills the inclusive
    axis-sorted box between its two corners; a circle fills the disk around
    its first point through its second; pixels outside the image are
    clipped.  The specification gives these fills on pixel coordinates:
    the fill of a shape with a float coordinate, like the fill of the
    other shape types, is left to the implementation and is empty here. *)
Definition grid (hw : nat * nat) (inside : Z → Z → bool) : Mask :=
  map (λ y, map (λ x, inside (Z.of_nat x) (Z.of_nat y)) (seq 0 hw.2))
    (seq 0 hw.1).

Definition spec_shape_to_mask (hw : nat * nat) (pts : list Point)
    (ty : string) : Mask :=
  match pts with
  | [(PyInt x0, PyInt y0); (PyInt x1, PyInt y1)] =>
      if String.eqb ty "rectangle" then
        let '(xmin, xmax) := (Z.min x0 x1, Z.max x0 x1) in
        let '(ymin, ymax) := (Z.min y0 y1, Z.max y0 y1) in
        grid hw (λ x y,
          (xmin <=? x) && (x <=? xmax) && (ymin <=? y) && (y <=? ymax))
      else if String.eqb ty "circle" then
        let r2 := (x1 - x0) * (x1 - x0) + (y1 - y0) * (y1 - y0) in
        grid hw (λ x y, (x - x0) * (x - x0) + (y - y0) * (y - y0) <=? r2)
      else grid hw (λ _ _, false)
  | _ => grid hw (λ _ _, false)
  end.

(** Modelled from the spec: [utils.annotations_to_label] is defined in
    labelme/utils, not in app.py.  Both rasters start at zero and are
    painted shape by shape in annotation order, a later shape overwriting
    an earlier one: the class raster with the class id of the label, the
    instance raster with the 1-based rank of the instance key among the
    keys met so far. *)
Definition paint (m : Mask) (v : Z) (r : Raster) : Raster :=
  imap (λ y row, imap (λ x old, if mask_get m y x then v else old) row) r.

Fixpoint index_of (k : InstanceKey) (ks : list InstanceKey) : option nat :=
  match ks with
  | [] => None
  | k' :: r => if decide (k = k') then Some 0%nat else S <$> index_of k r
  end.

Fixpoint paint_shapes (hw : nat * nat) (classes : list (string * Z))
    (anns : list Annotation) (instances : list InstanceKey) (clock : nat)
    (lbl : Raster * Raster) : Raster * Raster :=
  match anns with
  | [] => lbl
  | a :: r =>
      let key := match group_id a with
                 | Some g => (label a, Given g)
                 | None => (label a, Fresh clock)
                 end in
      let instances :=
        if bool_decide (key ∈ instances) then instances
        else instances ++ [key] in
      let ins_id := Z.of_nat (S (default 0%nat (index_of key instances))) in
      let cls_id := default 0 (dict_get (label a) classes) in
      let mask := spec_shape_to_mask hw (points a) (shape_type a) in
      paint_shapes hw classes r instances (S clock)
        (paint mask cls_id lbl.1, paint mask ins_id lbl.2)
  end.

Definition spec_annotations_to_label (shape : nat * nat * nat)
    (anns : list Annotation) (classes : list (string * Z)) : Raster * Raster :=
  let hw := (shape.1.1, shape.1.2) in
  let zeros := replicate hw.1 (replicate hw.2 0) in
  paint_shapes hw classes anns [] 0%nat (zeros, zeros).

(** ** Vocabulary of the statements *)

(** The tree after [if osp.isdir(p): shutil.rmtree(p)]. *)
Definition reset_tree (p : path) (s : gmap path Node) : gmap path Node :=
  match s !! p with
  | Some Dir => filter (λ kv, ¬ under p kv.1) s
  | _ => s
  end.

(** The slot [p] of the output root is a directory, or nothing is there. *)
Definition slot_clear (p : path) (s : gmap path Node) : Prop :=
  s !! p = Some Dir ∨ ∀ q, under p q → s !! q = None.

(** [q] holds a VOC annotation document without [<object>] elements. *)
Definition xml_without_objects (s : gmap path Node) (q : path) : Prop :=
  ∃ x, s !! q = Some (File (VocXmlFile x)) ∧ xml_objects x = [].

(** [out_xml_file] of an image in [exportDetectionVOC]. *)
Definition xml_path (lf : LabelFile) : path :=
  ["VOC"; "Annotations"; base lf +:+ ".xml"].

(** The same annotation with its two corner points exchanged. *)
Definition swap_corners (a : Annotation) : Annotation :=
  match points a with
  | [p; q] =>
      {| label := label a; shape_type := shape_type a;
         points := [q; p]; group_id := group_id a |}
  | _ => a
  end.

(** A rectangle with its two corner points exchanged; any other shape as
    it is. *)
Definition swap_rectangle (a : Annotation) : Annotation :=
  if is_rectangle a then swap_corners a else a.

Definition swap_rectangles (lf : LabelFile) : LabelFile :=
  {| base := base lf; img_height := img_height lf; img_width := img_width lf;
     img_depth := img_depth lf;
     annotations := map swap_rectangle (annotations lf) |}.

(** No annotation of the list carries a label of [class_names]. *)
Definition no_retained_label (class_names : list string)
    (anns : list Annotation) : bool :=
  forallb (λ a, negb (py_in (label a) class_names)) anns.

(** Every rectangle of the list has exactly two points. *)
Definition corners_ok (anns : list Annotation) : bool :=
  forallb (λ a, implb (is_rectangle a) (length (points a) =? 2)%nat) anns.

(** [out_img_file] and [out_ann_file] of [onExportCOCO]. *)
Definition coco_img_path (lf : LabelFile) : path :=
  ["COCO"; "JPEGImages"; base lf +:+ ".jpg"].

Definition coco_ann_path : path := ["COCO"; "annotations.json"].

(** Every key of [masks] carries a label outside [class_names]. *)
Definition none_retained (class_names : list string)
    (masks : list (InstanceKey * Mask)) : Prop :=
  ∀ k, k ∈ dict_keys masks → py_in k.1 class_names = false.

(** ** The instance union law *)

(** The instance keys of the shapes of one image, drawn in annotation
    order from the given clock. *)
Fixpoint resolve_instances (clock : nat) (anns : list Annotation)
  : list (InstanceKey * Annotation) :=
  match anns with
  | [] => []
  | a :: r =>
      ((instance_of clock a).1, a)
        :: resolve_instances (instance_of clock a).2 r
  end.

(** The keys of the shapes, each once, in the order of first appearance. *)
Definition keys_of (shapes : list (InstanceKey * Annotation))
  : list InstanceKey :=
  fold_left (λ ks ka, if bool_decide (ka.1 ∈ ks) then ks else ks ++ [ka.1])
    shapes [].

Definition well_shaped (hw : nat * nat) (m : Mask) : bool :=
  (length m =? hw.1)%nat && forallb (λ row, (length row =? hw.2)%nat) m.

Section UnionLaw.
Variable shape_to_mask : nat * nat → list Point → string → Mask.
Variable hw : nat * nat.

Definition shape_mask (a : Annotation) : Mask :=
  shape_to_mask hw (points a) (shape_type a).

(** Every shape mask has the shape of the image. *)
Definition shapes_ok (anns : list Annotation) : bool :=
  forallb (λ a, well_shaped hw (shape_mask a)) anns.

(** Pixel-wise OR of the masks of the shapes that carry key [k]. *)
Definition union_of_shapes (k : InstanceKey)
    (shapes : list (InstanceKey * Annotation)) (y x : nat) : bool :=
  existsb (λ ka, bool_decide (ka.1 = k) && mask_get (shape_mask ka.2) y x)
    shapes.

(** Some shape whose class id resolves to -1 covers the pixel. *)
Definition ignored_at (classes : list (string * Z))
    (shapes : list (InstanceKey * Annotation)) (y x : nat) : bool :=
  existsb (λ ka, bool_decide (dict_get (label ka.2) classes = Some (-1))
                 && mask_get (shape_mask ka.2) y x) shapes.

(** The law as the specification words it, for the masks the COCO encoder
    run-length-encodes: the OR of the constituent shape masks minus every
    pixel under a shape of the ignore class. *)
Definition instance_union_law (classes : list (string * Z)) (clock : nat)
    (anns : list Annotation) : Prop :=
  ∀ acc,
    coco_shapes shape_to_mask hw
      {| acc_masks := []; acc_segmentations := []; acc_clock := clock |} anns
    = Ok acc →
    ∀ k m, dict_get k (acc_masks acc) = Some m →
    ∀ y x, mask_get m y x =
           union_of_shapes k (resolve_instances clock anns) y x
           && negb (ignored_at classes (resolve_instances clock anns) y x).

End UnionLaw.

(** [out_ins_file] and [out_insp_file] of [exportSegmentationVOC]. *)
Definition ins_path (lf : LabelFile) : path :=
  ["VOC"; "SegmentationObject"; base lf +:+ ".npy"].

Definition insp_path (lf : LabelFile) : path :=
  ["VOC"; "SegmentationObjectPNG"; base lf +:+ ".png"].

(** [ins[cls == -1] = 0] pixel by pixel. *)
Definition zeroed_at (cls ins : Raster) (y x : nat) : option Z :=
  (λ i, if bool_decide (raster_get cls y x = Some (-1)) then 0 else i)
    <$> raster_get ins y x.

(** The law as the specification words it, for the instance raster the VOC
    segmentation export writes: the pixels that hold the id of an instance
    (its 1-based rank among the keys of the image) are the OR of its shape
    masks minus every pixel under a shape of the ignore class. *)
Definition voc_instance_union_law
    (annotations_to_label :
       nat * nat * nat → list Annotation → list (string * Z) → Raster * Raster)
    (shape_to_mask : nat * nat → list Point → string → Mask)
    (classes : list (string * Z)) (lf : LabelFile) : Prop :=
  let hw := (img_height lf, img_width lf) in
  let shapes := resolve_instances 0 (annotations lf) in
  ∀ s ins,
    (segmentation_image annotations_to_label classes (class_names_of classes)
       lf s).2 !! ins_path lf = Some (File (NpyFile ins)) →
    ∀ k i, index_of k (keys_of shapes) = Some i →
    ∀ y x, (y < hw.1)%nat → (x < hw.2)%nat →
      bool_decide (raster_get ins y x = Some (Z.of_nat (S i))) =
      union_of_shapes shape_to_mask hw k shapes y x
      && negb (ignored_at shape_to_mask hw classes shapes y x).

(** A mask of [hw.1] rows of [hw.2] pixels. *)
Definition wf_mask (hw : nat * nat) (m : Mask) : Prop :=
  length m = hw.1 ∧ Forall (λ row, length row = hw.2) m.

(** The round trip of the "car" rectangle as the specification words it:
    the registry, and an annotation with the given box and area in the
    document the COCO export writes. *)
Definition coco_round_trip
    (shape_to_mask : nat * nat → list Point → string → Mask)
    (imageList : list LabelFile) : Prop :=
  build_classes (getAllAnnotations imageList) =
    [("__ignore__", -1); ("_background_", 0); ("car", 1)] ∧
  ∃ d a,
    (onExportCOCO shape_to_mask imageList ∅).2 !! coco_ann_path =
      Some (File (CocoJsonFile d)) ∧
    a ∈ coco_annotations d ∧
    an_bbox a = [10; 10; 40; 40]%nat ∧ an_area a = 1600%nat.

(** ** Footprints *)

(** [q] is neither [p] nor below it. *)
Definition outside (p q : path) : Prop := ¬ under p q.

(** The action leaves every path that satisfies [Q] as it found it,
    whether it returns or raises. *)
Definition preserves {A : Type} (Q : path → Prop) (m : M A) : Prop :=
  ∀ s q, Q q → (m s).2 !! q = s !! q.

(** The smaller and the larger of two numbers. *)
Definition num_min (a b : Num) : Num := if py_lt a b then a else b.
Definition num_max (a b : Num) : Num := if py_lt a b then b else a.

(** The two numbers are one and the same, or [<] puts them in order. *)
Definition ordered (a b : Num) : bool :=
  bool_decide (a = b) || py_lt a b || py_lt b a.

(** On each axis the two corners of a two-point annotation are the same
    number or in order. *)
Definition corners_ordered (a : Annotation) : bool :=
  match points a with
  | [p; q] => ordered p.1 q.1 && ordered p.2 q.2
  | _ => true
  end.

(** Every rectangle of the list has its corners the same or in order on
    each axis. *)
Definition rectangles_ordered (anns : list Annotation) : bool :=
  forallb (λ a, implb (is_rectangle a) (corners_ordered a)) anns.

(** The rasteriser fills the same pixels for a rectangle whichever corner
    comes first. *)
Definition corner_order_free
    (shape_to_mask : nat * nat → list Point → string → Mask) : Prop :=
  ∀ hw p q,
    shape_to_mask hw [q; p] "rectangle" = shape_to_mask hw [p; q] "rectangle".

(** The [<object>] element of a two-point annotation: its label and the
    axis-sorted corners. *)
Definition box_object (a : Annotation) : option VocObject :=
  match points a with
  | [p; q] =>
      Some (mkVocObject (label a)
              (num_min p.1 q.1) (num_min p.2 q.2)
              (num_max p.1 q.1) (num_max p.2 q.2))
  | _ => None
  end.

(** The label of the annotation has an id in [classes] that is not
    negative. *)
Definition drawable (classes : list (string * Z)) (a : Annotation) : bool :=
  match dict_get (label a) classes with
  | Some class_id => 0 <=? class_id
  | None => false
  end.

(** The [segmentation] polygon of a shape: for a rectangle the eight
    numbers x1,y1,x2,y1,x2,y2,x1,y2 of its axis-sorted box. *)
Definition polygon_of (a : Annotation) : list Num :=
  if is_rectangle a then
    match points a with
    | [p; q] =>
        let x1 := num_min p.1 q.1 in let x2 := num_max p.1 q.1 in
        let y1 := num_min p.2 q.2 in let y2 := num_max p.2 q.2 in
        [x1; y1; x2; y1; x2; y2; x1; y2]
    | _ => []
    end
  else np_flatten (points a).

(** The polygons of the shapes that carry key [k], in annotation order. *)
Definition polygons_of (k : InstanceKey)
    (shapes : list (InstanceKey * Annotation)) : list (list Num) :=
  map (λ ka, polygon_of ka.2) (filter (λ ka, ka.1 = k) shapes).

(** Those keys whose label is in [class_names]. *)
Definition retained_keys (class_names : list string)
    (shapes : list (InstanceKey * Annotation)) : list InstanceKey :=
  filter (λ k, py_in k.1 class_names = true) (keys_of shapes).

(** Every label of [class_names] has an id in [classes] that is not
    negative. *)
Definition retained_drawable (classes : list (string * Z))
    (class_names : list string) : bool :=
  forallb (λ l, match dict_get l classes with
                | Some class_id => 0 <=? class_id
                | None => false
                end) class_names.

(** The [<object>] elements of the document at [p], and the
    [segmentation] fields of the COCO document. *)
Definition written_objects (s : gmap path Node) (p : path)
  : option (list VocObject) :=
  match s !! p with
  | Some (File (VocXmlFile x)) => Some (xml_objects x)
  | _ => None
  end.

Definition written_segmentations (s : gmap path Node)
  : option (list (list (list Num))) :=
  match s !! coco_ann_path with
  | Some (File (CocoJsonFile d)) =>
      Some (map an_segmentation (coco_annotations d))
  | _ => None
  end.

(** No annotation of the list carries the label "__ignore__". *)
Definition none_ignored (anns : list Annotation) : bool :=
  forallb (λ a, negb (String.eqb (label a) "__ignore__")) anns.

(** Every annotation of the list has exactly two points. *)
Definition two_points (anns : list Annotation) : bool :=
  forallb (λ a, (length (points a) =? 2)%nat) anns.

(** The entry appended to [data["images"]] for the image at position
    [e.1] of the image list. *)
Definition image_entry (e : nat * LabelFile) : CocoImage :=
  {| im_file_name := "JPEGImages/" +:+ base e.2 +:+ ".jpg";
     im_height := img_height e.2;
     im_width := img_width e.2;
     im_id := e.1 |}.

(** The annotation ids count up from 0, and every annotation belongs to
    one of the first [n] images and has the id of a retained class. *)
Definition annotations_ok (classes : list (string * Z))
    (class_names : list string) (n : nat) (anns : list CocoAnnotation) : Prop :=
  map an_id anns = seq 0 (length anns) ∧
  Forall (λ a, (an_image_id a < n)%nat ∧
               ∃ l, py_in l class_names = true ∧
                    dict_get l classes = Some (an_category_id a)) anns.

(** ** Sample datasets *)

Definition car_rectangle : Annotation :=
  mkAnnotation "car" "rectangle" [pt 10 10; pt 50 50] None.

(** The synthetic 100x100 image with the single "car" rectangle. *)
Definition car_image : LabelFile := mkLabelFile "car" 100 100 3 [car_rectangle].

(** Two image lists with the same label sequence, split differently over
    the images. *)
Definition shape_of (l ty : string) : Annotation := mkAnnotation l ty [] None.

Definition labels_one_image : list LabelFile :=
  [mkLabelFile "a" 4 4 3
     [shape_of "dog" "polygon"; shape_of "car" "circle";
      shape_of "dog" "polygon"; shape_of "__ignore__" "polygon"]].

Definition labels_two_images : list LabelFile :=
  [mkLabelFile "a" 4 4 3 [shape_of "dog" "rectangle"; shape_of "car" "polygon"];
   mkLabelFile "b" 8 8 3
     [shape_of "dog" "polygon"; shape_of "__ignore__" "line"]].

(** An all-rectangle scope, a scope with a polygon among rectangles, and a
    scope of circles only. *)
Definition rectangles_only : list LabelFile :=
  [mkLabelFile "a" 4 4 3
     [mkAnnotation "car" "rectangle" [pt 0 0; pt 1 1] None;
      mkAnnotation "dog" "rectangle" [pt 3 3; pt 2 2] None]].

Definition rectangle_and_polygon : list LabelFile :=
  [mkLabelFile "a" 4 4 3
     [mkAnnotation "car" "rectangle" [pt 0 0; pt 1 1] None;
      mkAnnotation "dog" "polygon" [pt 0 0; pt 3 0; pt 3 3] None]].

Definition circles_only : list LabelFile :=
  [mkLabelFile "a" 5 5 3 [mkAnnotation "car" "circle" [pt 2 2; pt 2 3] None]].

(** Two images without annotations. *)
Definition unannotated : list LabelFile :=
  [mkLabelFile "a" 4 4 3 []; mkLabelFile "b" 2 2 3 []].

(** An output root holding the result of an earlier VOC export. *)
Definition earlier_voc_tree : gmap path Node :=
  <[ ["VOC"] := Dir ]>
    (<[ ["VOC"; "JPEGImages"] := Dir ]>
       (<[ ["VOC"; "JPEGImages"; "old.jpg"] := File (ImageFile (4, 4, 3)%nat) ]>
          ∅)).

(** A scope whose first image carries only "__ignore__" shapes. *)
Definition ignored_then_car : list LabelFile :=
  [mkLabelFile "a" 4 4 3
     [mkAnnotation "__ignore__" "circle" [pt 1 1; pt 1 2] None;
      mkAnnotation "__ignore__" "rectangle" [pt 0 0; pt 1 1] (Some 7)];
   mkLabelFile "b" 4 4 3 [mkAnnotation "car" "circle" [pt 2 2; pt 2 3] None]].

(** A "car" box and an "__ignore__" box that share the pixel (1,1) of a
    3x3 image. *)
Definition car_under_ignore : list Annotation :=
  [mkAnnotation "car" "rectangle" [pt 0 0; pt 1 1] (Some 1);
   mkAnnotation "__ignore__" "rectangle" [pt 1 1; pt 2 2] (Some 2)].

(** A "car" made of two boxes of one group, and a lone circle. *)
Definition two_part_car : list Annotation :=
  [mkAnnotation "car" "rectangle" [pt 0 0; pt 1 1] (Some 1);
   mkAnnotation "dog" "circle" [pt 3 3; pt 3 4] None;
   mkAnnotation "car" "rectangle" [pt 4 2; pt 3 1] (Some 1)].

(** A scan and a later batch of annotations that brings no new label. *)
Definition first_scan : list Annotation :=
  [shape_of "dog" "polygon"; shape_of "car" "circle"; shape_of "dog" "line"].

Definition known_labels_again : list Annotation :=
  [shape_of "car" "polygon"; shape_of "_background_" "polygon";
   shape_of "dog" "point"].

(** An output root with a file of its own beside an earlier VOC export. *)
Definition busy_root : gmap path Node :=
  <[ ["notes.txt"] := File (ImageFile (1, 1, 1)%nat) ]> earlier_voc_tree.

(** An output root where the names of the three subtrees are taken by
    plain files. *)
Definition blocked_root : gmap path Node :=
  <[ ["VOC"] := File (ImageFile (1, 1, 1)%nat) ]>
    (<[ ["COCO"] := File (ImageFile (1, 1, 1)%nat) ]>
       (<[ ["PixelMap"] := File (ImageFile (1, 1, 1)%nat) ]> ∅)).

(** Two images of rectangles with different base names. *)
Definition two_box_images : list LabelFile :=
  [mkLabelFile "a" 60 60 3
     [mkAnnotation "car" "rectangle" [pt 50 50; pt 10 10] None;
      mkAnnotation "dog" "rectangle" [pt 1 2; pt 3 4] (Some 1)];
   mkLabelFile "b" 8 8 3 [mkAnnotation "car" "rectangle" [pt 0 7; pt 7 0] None]].

(** An "__ignore__" box drawn first and a "car" box drawn over its pixel
    (1,1), in a 3x3 image. *)
Definition ignore_under_car : LabelFile :=
  mkLabelFile "a" 3 3 3
    [mkAnnotation "__ignore__" "rectangle" [pt 1 1; pt 2 2] (Some 2);
     mkAnnotation "car" "rectangle" [pt 0 0; pt 1 1] (Some 1)].

(** The floats 0.0 and -0.0. *)
Definition float_zero : Num := PyFloat (S754_zero false).
Definition float_neg_zero : Num := PyFloat (S754_zero true).

(** A "car" rectangle whose corners have the x-coordinates 0.0 and -0.0,
    alone in an image, and beside a circle. *)
Definition zero_width_box : Annotation :=
  mkAnnotation "car" "rectangle" [pt float_zero 0; pt float_neg_zero 5] None.

Definition zero_width_alone : LabelFile :=
  mkLabelFile "a" 8 8 3 [zero_width_box].

Definition zero_width_and_circle : LabelFile :=
  mkLabelFile "a" 8 8 3
    [zero_width_box; mkAnnotation "dog" "circle" [pt 2 2; pt 2 3] None].

(** A reversed "car" rectangle of two parts beside a polygon, and a second
    image with one more rectangle. *)
Definition reversed_boxes : list LabelFile :=
  [mkLabelFile "a" 60 60 3
     [mkAnnotation "car" "rectangle" [pt 50 50; pt 10 10] (Some 1);
      mkAnnotation "dog" "polygon" [pt 0 0; pt 3 0; pt 3 3] None;
      mkAnnotation "car" "rectangle" [pt 1 2; pt 3 4] (Some 1)];
   mkLabelFile "b" 8 8 3 [mkAnnotation "car" "rectangle" [pt 0 7; pt 7 0] None]].

(** An image of two rectangles, the second labelled "__ignore__". *)
Definition box_and_ignored_box : LabelFile :=
  mkLabelFile "a" 8 8 3
    [mkAnnotation "car" "rectangle" [pt 0 0; pt 3 3] None;
     mkAnnotation "__ignore__" "rectangle" [pt 4 4; pt 6 6] None].

(** * Properties *)

(** ** Dictionaries *)

Section DictFacts.
Context {K V : Type} `{EqDecision K}.
Implicit Types (d : list (K * V)) (k : K) (v : V).

Lemma dict_set_fresh k v d :
  k ∉ dict_keys d → dict_set k v d = d ++ [(k, v)].
Proof.
  induction d as [|[k' v'] d IH]; simpl; [done|].
  intros Hk. apply not_elem_of_cons in Hk as [Hne Hk].
  destruct (decide (k = k')); [done|]. by rewrite IH.
Qed.

Lemma dict_keys_set k v d :
  dict_keys (dict_set k v d) =
  if bool_decide (k ∈ dict_keys d) then dict_keys d else dict_keys d ++ [k].
Proof.
  induction d as [|[k' v'] d IH]; simpl; [done|].
  destruct (decide (k = k')) as [->|Hne]; simpl.
  - rewrite bool_decide_eq_true_2; [done|]. apply elem_of_cons; by left.
  - rewrite IH. case_bool_decide as Hin.
    + rewrite bool_decide_eq_true_2; [done|]. apply elem_of_cons; by right.
    + rewrite bool_decide_eq_false_2; [done|].
      intros [?|?]%elem_of_cons; done.
Qed.

Lemma dict_get_set_eq k v d : dict_get k (dict_set k v d) = Some v.
Proof.
  induction d as [|[k' v'] d IH]; simpl.
  - by rewrite decide_True.
  - destruct (decide (k = k')) as [->|Hne]; simpl.
    + by rewrite decide_True.
    + by rewrite decide_False.
Qed.

Lemma dict_get_set_ne k k' v d :
  k ≠ k' → dict_get k' (dict_set k v d) = dict_get k' d.
Proof.
  intros Hne. induction d as [|[k0 v0] d IH]; simpl.
  - by rewrite decide_False.
  - destruct (decide (k = k0)) as [->|Hne0]; simpl.
    + by rewrite !decide_False.
    + destruct (decide (k' = k0)); [done|]. apply IH.
Qed.

Lemma dict_get_None k d : dict_get k d = None ↔ k ∉ dict_keys d.
Proof.
  induction d as [|[k0 v0] d IH]; simpl.
  - split; [intros _; apply not_elem_of_nil|done].
  - destruct (decide (k = k0)) as [->|Hne].
    + split; [done|]. intros []. apply elem_of_cons; by left.
    + rewrite IH, not_elem_of_cons. split; [by intros ?|by intros [_ ?]].
Qed.

End DictFacts.

(** ** Class registry *)

Lemma getAllAnnotations_from (imageList : list LabelFile) acc :
  fold_left (fun acc lf => acc ++ annotations lf) imageList acc =
  acc ++ concat (map annotations imageList).
Proof.
  revert acc. induction imageList as [|lf r IH]; intros acc; simpl.
  - by rewrite app_nil_r.
  - by rewrite IH, app_assoc.
Qed.

Lemma getAllAnnotations_concat imageList :
  getAllAnnotations imageList = concat (map annotations imageList).
Proof. unfold getAllAnnotations. by rewrite getAllAnnotations_from. Qed.

Lemma number_from_snoc start labels l :
  number_from start (labels ++ [l]) =
  number_from start labels ++ [(l, Z.of_nat (start + length labels))].
Proof.
  unfold number_from. rewrite length_app. simpl.
  rewrite seq_app, map_app. simpl.
  rewrite zip_with_app; [done|]. by rewrite length_map, length_seq.
Qed.

Lemma number_from_keys start labels :
  dict_keys (number_from start labels) = labels.
Proof.
  unfold dict_keys, number_from.
  apply fst_zip. by rewrite length_map, length_seq.
Qed.

Lemma number_from_length start labels :
  length (number_from start labels) = length labels.
Proof.
  unfold number_from. rewrite length_zip_with, length_map, length_seq. lia.
Qed.

Lemma first_encounters_ext seen1 seen2 labels :
  (∀ x, x ∈ seen1 ↔ x ∈ seen2) →
  first_encounters seen1 labels = first_encounters seen2 labels.
Proof.
  revert seen1 seen2. induction labels as [|l r IH]; intros s1 s2 Hs; simpl.
  - done.
  - rewrite (bool_decide_ext _ _ (Hs l)). case_bool_decide.
    + by apply IH.
    + f_equal. apply IH. intros x. rewrite !elem_of_cons. by rewrite Hs.
Qed.

Lemma seed_keys fresh :
  dict_keys (seed_classes ++ number_from 1 fresh) =
  ["__ignore__"; "_background_"] ++ fresh.
Proof.
  unfold dict_keys. rewrite map_app. f_equal. apply number_from_keys.
Qed.

(** The loop invariant of the registry build: after the seeds come the
    labels met so far, numbered from 1. *)
Lemma build_classes_from anns fresh seen :
  (∀ x, x ∈ seen ↔ x ∈ ["__ignore__"; "_background_"] ++ fresh) →
  fold_left register_class anns (seed_classes ++ number_from 1 fresh) =
  seed_classes ++
    number_from 1 (fresh ++ first_encounters seen (map label anns)).
Proof.
  revert fresh seen. induction anns as [|a r IH]; intros fresh seen Hseen;
    cbn [fold_left map first_encounters].
  - by rewrite app_nil_r.
  - assert (Hdec : py_in (label a)
                     (dict_keys (seed_classes ++ number_from 1 fresh)
                        ++ ["__ignore__"; "_background_"]) =
                   bool_decide (label a ∈ seen)).
    { unfold py_in. apply bool_decide_ext.
      rewrite seed_keys, Hseen, !elem_of_app. tauto. }
    unfold register_class at 2. rewrite Hdec.
    case_bool_decide as Hin.
    + by apply IH.
    + rewrite dict_set_fresh.
      2:{ rewrite seed_keys. by rewrite <- Hseen. }
      rewrite length_app, number_from_length. simpl length.
      replace (Z.of_nat (2 + length fresh) - 1)
        with (Z.of_nat (1 + length fresh)) by lia.
      rewrite <- app_assoc, <- number_from_snoc.
      rewrite (IH (fresh ++ [label a]) (label a :: seen)).
      * by rewrite <- app_assoc.
      * intros x.
        rewrite elem_of_cons, Hseen, !elem_of_app, list_elem_of_singleton.
        tauto.
Qed.

Lemma build_classes_spec anns :
  build_classes anns = spec_registry (map label anns).
Proof.
  unfold build_classes, spec_registry.
  change seed_classes with (seed_classes ++ number_from 1 []) at 1.
  by rewrite (build_classes_from anns [] ["__ignore__"; "_background_"]).
Qed.

Lemma register_class_extends classes a :
  classes `prefix_of` register_class classes a.
Proof.
  unfold register_class, py_in. case_bool_decide as Hin; [done|].
  rewrite dict_set_fresh.
  - by apply prefix_app_r.
  - intros Hk. apply Hin. apply elem_of_app. by left.
Qed.

Lemma build_extends anns classes :
  classes `prefix_of` fold_left register_class anns classes.
Proof.
  revert classes. induction anns as [|a r IH]; intros classes; simpl; [done|].
  etrans; [apply register_class_extends|apply IH].
Qed.

(** C4: the registry build is the fold that starts from the two seeds,
    scans the annotations in image-list order and stored order, and gives
    each label not yet present the next id 1, 2, 3, ...; entries already
    present are neither reassigned nor reordered, and the result depends on
    the label sequence only. *)
Theorem registry_build_fold (imageList : list LabelFile) :
  let anns := getAllAnnotations imageList in
  anns = concat (map annotations imageList) ∧
  build_classes anns = spec_registry (map label anns) ∧
  (∀ more, build_classes anns `prefix_of` build_classes (anns ++ more)) ∧
  (∀ imageList',
     map label (getAllAnnotations imageList') = map label anns →
     build_classes (getAllAnnotations imageList') = build_classes anns).
Proof.
  intros anns. repeat split.
  - apply getAllAnnotations_concat.
  - apply build_classes_spec.
  - intros more. unfold build_classes. rewrite fold_left_app. apply build_extends.
  - intros imageList' Hlabels. by rewrite !build_classes_spec, Hlabels.
Qed.

Lemma registry_build_fold_witness :
  build_classes (getAllAnnotations labels_two_images) =
  build_classes (getAllAnnotations labels_one_image).
Proof.
  apply (proj2 (proj2 (proj2 (registry_build_fold labels_one_image)))).
  reflexivity.
Defined.

(** ** The output tree *)

Lemma reset_step p s :
  (d ← isdir p; when d (rmtree p)) s = (Ok (), reset_tree p s).
Proof.
  unfold reset_tree, mbind, M_bind, isdir, when, rmtree.
  destruct (s !! p) as [[|c]|]; reflexivity.
Qed.

Lemma reset_tree_shrinks p s q n :
  reset_tree p s !! q = Some n → s !! q = Some n.
Proof.
  unfold reset_tree. destruct (s !! p) as [[|c]|]; try done.
  by intros [? _]%map_lookup_filter_Some.
Qed.

Lemma reset_tree_elsewhere p s q :
  ¬ under p q → reset_tree p s !! q = s !! q.
Proof.
  intros Hq. unfold reset_tree. destruct (s !! p) as [[|c]|]; try done.
  destruct (s !! q) as [n|] eqn:Hs.
  - by apply map_lookup_filter_Some.
  - apply map_lookup_filter_None. left. done.
Qed.

Lemma reset_tree_below p s q :
  s !! p = Some Dir → under p q → reset_tree p s !! q = None.
Proof.
  intros Hp Hq. unfold reset_tree. rewrite Hp.
  apply map_lookup_filter_None. right. intros n _ Hn. by apply Hn.
Qed.

Lemma reset_tree_clear p s q :
  slot_clear p s → under p q → reset_tree p s !! q = None.
Proof.
  intros [Hdir|Hfree] Hq.
  - by apply reset_tree_below.
  - destruct (reset_tree p s !! q) as [n|] eqn:Hn; [|done].
    apply reset_tree_shrinks in Hn. by rewrite Hfree in Hn.
Qed.

(** ** Format selection and refusals *)

Section Dispatch.
Variable annotations_to_label :
  nat * nat * nat → list Annotation → list (string * Z) → Raster * Raster.
Variable shape_to_mask : nat * nat → list Point → string → Mask.

Lemma onExportVOC_unfold imageList s :
  onExportVOC annotations_to_label imageList s =
  (match select_annotation_type (getAllAnnotations imageList) with
   | BboxDetection =>
       exportDetectionVOC imageList (build_classes (getAllAnnotations imageList))
   | Segmentation =>
       exportSegmentationVOC annotations_to_label imageList
         (build_classes (getAllAnnotations imageList))
   | NoType => mret ()
   end ;; mret RetNone) (reset_tree ["VOC"] s).
Proof.
  unfold onExportVOC.
  pose proof (reset_step ["VOC"] s) as Hreset.
  unfold mbind, M_bind in *.
  destruct (isdir ["VOC"] s) as [[d|e] s1] eqn:Hd.
  - destruct (when d (rmtree ["VOC"]) s1) as [[[]|e] s2]; by inversion Hreset.
  - by inversion Hreset.
Qed.

(** C5: when every annotation of the scope is a rectangle the VOC export
    runs [exportDetectionVOC]; otherwise, when some annotation is a polygon,
    it runs [exportSegmentationVOC]; in particular two rectangles select
    detection and a rectangle with a polygon selects segmentation. *)
Theorem voc_format_selection (imageList : list LabelFile) (s : gmap path Node) :
  let anns := getAllAnnotations imageList in
  (forallb is_rectangle anns = true →
   select_annotation_type anns = BboxDetection ∧
   onExportVOC annotations_to_label imageList s =
   (exportDetectionVOC imageList (build_classes anns) ;; mret RetNone)
     (reset_tree ["VOC"] s)) ∧
  (forallb is_rectangle anns = false → existsb is_polygon anns = true →
   select_annotation_type anns = Segmentation ∧
   onExportVOC annotations_to_label imageList s =
   (exportSegmentationVOC annotations_to_label imageList (build_classes anns) ;;
    mret RetNone) (reset_tree ["VOC"] s)) ∧
  (∀ l1 p1 g1 l2 p2 g2,
     select_annotation_type
       [mkAnnotation l1 "rectangle" p1 g1; mkAnnotation l2 "rectangle" p2 g2] =
     BboxDetection) ∧
  (∀ l1 p1 g1 l2 p2 g2,
     select_annotation_type
       [mkAnnotation l1 "rectangle" p1 g1; mkAnnotation l2 "polygon" p2 g2] =
     Segmentation).
Proof.
  intros anns. split; [|split; [|split]].
  - intros Hrect. rewrite onExportVOC_unfold. fold anns.
    unfold select_annotation_type. by rewrite Hrect.
  - intros Hrect Hpoly. rewrite onExportVOC_unfold. fold anns.
    unfold select_annotation_type. by rewrite Hrect, Hpoly.
  - done.
  - done.
Qed.

Lemma all_rectangles_refused imageList s :
  forallb is_rectangle (getAllAnnotations imageList) = true →
  onExportCOCO shape_to_mask imageList s = (Ok RetFalse, s) ∧
  onExportPixelMap annotations_to_label imageList s = (Ok RetFalse, s).
Proof.
  intros Hall. unfold onExportCOCO, onExportPixelMap. by rewrite Hall.
Qed.

(** C6: on a scope whose annotations are all rectangles the COCO export
    and the pixel-map export return [False] and leave the output root as it
    was. *)
Theorem coco_pixelmap_refuse_rectangles (imageList : list LabelFile)
    (s : gmap path Node) :
  forallb is_rectangle (getAllAnnotations imageList) = true →
  onExportCOCO shape_to_mask imageList s = (Ok RetFalse, s) ∧
  onExportPixelMap annotations_to_label imageList s = (Ok RetFalse, s).
Proof.
  apply all_rectangles_refused.
Qed.

(** C2, as the code has it: on a scope that is neither all rectangles nor
    contains a polygon the VOC export runs neither encoder and creates
    nothing, but it has already removed an existing VOC directory with all
    that was below it; the rest of the output root is untouched and the
    slot returns [None]. *)
Theorem voc_ambiguous_scope (imageList : list LabelFile) (s : gmap path Node) :
  forallb is_rectangle (getAllAnnotations imageList) = false →
  existsb is_polygon (getAllAnnotations imageList) = false →
  onExportVOC annotations_to_label imageList s =
    (Ok RetNone, reset_tree ["VOC"] s) ∧
  (∀ q n, reset_tree ["VOC"] s !! q = Some n → s !! q = Some n) ∧
  (∀ q, ¬ under ["VOC"] q → reset_tree ["VOC"] s !! q = s !! q) ∧
  (s !! ["VOC"] = Some Dir →
   ∀ q, under ["VOC"] q → reset_tree ["VOC"] s !! q = None).
Proof.
  intros Hrect Hpoly. split; [|split; [|split]].
  - rewrite onExportVOC_unfold. unfold select_annotation_type.
    by rewrite Hrect, Hpoly.
  - apply reset_tree_shrinks.
  - intros q Hq. by apply reset_tree_elsewhere.
  - intros Hdir q Hq. by apply reset_tree_below.
Qed.

End Dispatch.

Lemma voc_format_selection_witness :
  select_annotation_type (getAllAnnotations rectangles_only) = BboxDetection ∧
  select_annotation_type (getAllAnnotations rectangle_and_polygon) = Segmentation.
Proof.
  split.
  - apply (proj1 (voc_format_selection spec_annotations_to_label
                    rectangles_only ∅)).
    reflexivity.
  - apply (proj1 (proj2 (voc_format_selection spec_annotations_to_label
                           rectangle_and_polygon ∅))); reflexivity.
Defined.

Lemma coco_pixelmap_refuse_rectangles_witness :
  onExportCOCO spec_shape_to_mask rectangles_only earlier_voc_tree =
    (Ok RetFalse, earlier_voc_tree) ∧
  onExportPixelMap spec_annotations_to_label rectangles_only earlier_voc_tree =
    (Ok RetFalse, earlier_voc_tree).
Proof.
  apply (coco_pixelmap_refuse_rectangles spec_annotations_to_label
           spec_shape_to_mask rectangles_only earlier_voc_tree).
  reflexivity.
Defined.

Lemma voc_ambiguous_scope_witness :
  onExportVOC spec_annotations_to_label circles_only earlier_voc_tree =
    (Ok RetNone, reset_tree ["VOC"] earlier_voc_tree).
Proof.
  apply (voc_ambiguous_scope spec_annotations_to_label circles_only
           earlier_voc_tree); reflexivity.
Defined.

(** C2 as worded fails: the circles-only scope is ambiguous, and the file
    left by the earlier VOC export is gone afterwards. *)
Lemma ambiguous_scope_loses_earlier_export :
  select_annotation_type (getAllAnnotations circles_only) = NoType ∧
  earlier_voc_tree !! ["VOC"; "JPEGImages"; "old.jpg"] =
    Some (File (ImageFile (4, 4, 3)%nat)) ∧
  (onExportVOC spec_annotations_to_label circles_only earlier_voc_tree).2
    !! ["VOC"; "JPEGImages"; "old.jpg"] = None.
Proof. repeat split; vm_compute; reflexivity. Qed.

(** ** Detection export of images without annotations *)

Lemma detection_image_unannotated classes lf s :
  annotations lf = [] →
  detection_image classes lf s =
  (Ok (),
   <[xml_path lf := File (VocXmlFile (detection_xml lf []))]>
     (<[ ["VOC"; "AnnotationsVisualization"; base lf +:+ ".jpg"] :=
           File (BboxVizFile [] [] []) ]>
        (<[ ["VOC"; "JPEGImages"; base lf +:+ ".jpg"] :=
              File (ImageFile (img_shape lf)) ]> s))).
Proof. intros Hnone. unfold detection_image. by rewrite Hnone. Qed.

Lemma detection_image_writes classes lf s :
  annotations lf = [] →
  xml_without_objects (detection_image classes lf s).2 (xml_path lf).
Proof.
  intros Hnone. rewrite detection_image_unannotated by done.
  eexists. simpl. by rewrite lookup_insert_eq.
Qed.

Lemma detection_image_keeps classes lf s name :
  annotations lf = [] →
  xml_without_objects s ["VOC"; "Annotations"; name] →
  xml_without_objects (detection_image classes lf s).2
    ["VOC"; "Annotations"; name].
Proof.
  intros Hnone Hold.
  destruct (decide (xml_path lf = ["VOC"; "Annotations"; name])) as [<-|Hne].
  { by apply detection_image_writes. }
  destruct Hold as (x & Hq & Hx).
  rewrite detection_image_unannotated by done.
  exists x. simpl. by rewrite !lookup_insert_ne.
Qed.

Lemma detection_loop_unannotated classes imageList s :
  Forall (λ lf, annotations lf = []) imageList →
  ∃ s', for_each (detection_image classes) imageList s = (Ok (), s') ∧
        (∀ name, xml_without_objects s ["VOC"; "Annotations"; name] →
                 xml_without_objects s' ["VOC"; "Annotations"; name]) ∧
        (∀ lf, lf ∈ imageList → xml_without_objects s' (xml_path lf)).
Proof.
  intros Hnone. revert s.
  induction Hnone as [|lf r Hlf Hr IH]; intros s.
  - exists s. split; [done|]. split; [done|].
    intros lf Hin. by apply elem_of_nil in Hin.
  - destruct (IH (detection_image classes lf s).2) as (s' & Hrun & Hkeep & Hall).
    exists s'. split; [|split].
    + cbn [for_each]. unfold mbind, M_bind.
      rewrite (detection_image_unannotated classes lf s Hlf) in *. exact Hrun.
    + intros name Hold. apply Hkeep. by apply detection_image_keeps.
    + intros lf' [->|Hin]%elem_of_cons.
      * apply (Hkeep (base lf +:+ ".xml")). by apply detection_image_writes.
      * by apply Hall.
Qed.

Lemma makedirs_free p s :
  s !! p = None → makedirs p s = (Ok (), <[p := Dir]> s).
Proof. intros Hp. unfold makedirs. by rewrite Hp. Qed.

Lemma exportDetectionVOC_unannotated classes imageList s :
  (∀ q, under ["VOC"] q → s !! q = None) →
  Forall (λ lf, annotations lf = []) imageList →
  ∃ s', exportDetectionVOC imageList classes s = (Ok (), s') ∧
        ∀ lf, lf ∈ imageList → xml_without_objects s' (xml_path lf).
Proof.
  intros Hfree Hnone.
  assert (Hsub : ∀ r, under ["VOC"] ("VOC" :: r)).
  { intros r. by exists r. }
  unfold exportDetectionVOC, mbind, M_bind.
  rewrite makedirs_free by (apply Hfree, Hsub).
  rewrite makedirs_free by (rewrite lookup_insert_ne by done; apply Hfree, Hsub).
  rewrite makedirs_free
    by (rewrite !lookup_insert_ne by done; apply Hfree, Hsub).
  rewrite makedirs_free
    by (rewrite !lookup_insert_ne by done; apply Hfree, Hsub).
  match goal with
  | |- ∃ s', for_each _ _ ?s0 = _ ∧ _ =>
      destruct (detection_loop_unannotated classes imageList s0 Hnone)
        as (s' & Hrun & _ & Hall)
  end.
  by exists s'.
Qed.

Lemma no_annotations_each imageList :
  getAllAnnotations imageList = [] →
  Forall (λ lf, annotations lf = []) imageList.
Proof.
  rewrite getAllAnnotations_concat.
  induction imageList as [|lf r IH]; simpl; [by constructor|].
  intros [Hlf Hr]%app_eq_nil. constructor; [done|by apply IH].
Qed.

Section EmptyScope.
Variable annotations_to_label :
  nat * nat * nat → list Annotation → list (string * Z) → Raster * Raster.
Variable shape_to_mask : nat * nat → list Point → string → Mask.

(** C10: on a scope without annotations "all annotations are rectangles"
    holds vacuously: the COCO and pixel-map exports return [False] and
    touch nothing, while the VOC export takes the detection branch and
    leaves, for every image of the scope, an annotation document without
    [<object>] elements. *)
Theorem empty_scope_exports (imageList : list LabelFile) (s : gmap path Node) :
  getAllAnnotations imageList = [] →
  forallb is_rectangle (getAllAnnotations imageList) = true ∧
  onExportCOCO shape_to_mask imageList s = (Ok RetFalse, s) ∧
  onExportPixelMap annotations_to_label imageList s = (Ok RetFalse, s) ∧
  select_annotation_type (getAllAnnotations imageList) = BboxDetection ∧
  (slot_clear ["VOC"] s →
   ∃ s', onExportVOC annotations_to_label imageList s = (Ok RetNone, s') ∧
         ∀ lf, lf ∈ imageList → xml_without_objects s' (xml_path lf)).
Proof.
  intros Hnone.
  assert (Hall : forallb is_rectangle (getAllAnnotations imageList) = true)
    by (by rewrite Hnone).
  split; [done|].
  destruct (all_rectangles_refused annotations_to_label
              shape_to_mask imageList s Hall) as [Hcoco Hpix].
  split; [done|]. split; [done|].
  split; [unfold select_annotation_type; by rewrite Hall|].
  intros Hclear. rewrite onExportVOC_unfold.
  unfold select_annotation_type. rewrite Hall.
  destruct (exportDetectionVOC_unannotated
              (build_classes (getAllAnnotations imageList)) imageList
              (reset_tree ["VOC"] s)) as (s' & Hrun & Hdocs).
  - intros q Hq. by apply reset_tree_clear.
  - by apply no_annotations_each.
  - exists s'. split; [|done].
    unfold mbind, M_bind. by rewrite Hrun.
Qed.

End EmptyScope.

Lemma empty_scope_exports_witness :
  ∃ s', onExportVOC spec_annotations_to_label unannotated earlier_voc_tree =
          (Ok RetNone, s') ∧
        ∀ lf, lf ∈ unannotated → xml_without_objects s' (xml_path lf).
Proof.
  apply (empty_scope_exports spec_annotations_to_label spec_shape_to_mask
           unannotated earlier_voc_tree).
  - reflexivity.
  - left. reflexivity.
Defined.

(** ** Rectangle corners *)

Lemma SFcompare_antisym f g : SFcompare g f = CompOpp <$> SFcompare f g.
Proof.
  destruct f as [s1|s1| |s1 m1 e1], g as [s2|s2| |s2 m2 e2]; simpl; try done;
    try (by destruct s1); try (by destruct s2); try (by destruct s1, s2).
  rewrite (Z.compare_antisym e1 e2).
  change (Pos.compare_cont Eq m2 m1) with (Pos.compare m2 m1).
  change (Pos.compare_cont Eq m1 m2) with (Pos.compare m1 m2).
  rewrite (Pos.compare_antisym m1 m2).
  by destruct s1, s2; simpl; try done; destruct (e1 ?= e2); simpl.
Qed.

Lemma num_compare_antisym a b : num_compare b a = CompOpp <$> num_compare a b.
Proof.
  destruct a as [x|f], b as [y|g]; simpl.
  - by rewrite (Z.compare_antisym x y).
  - done.
  - destruct (int_float_compare y f) as [c|]; simpl; [|done].
    by rewrite CompOpp_involutive.
  - apply SFcompare_antisym.
Qed.

Lemma py_lt_asym a b : py_lt a b = true → py_lt b a = false.
Proof.
  unfold py_lt. rewrite (num_compare_antisym a b).
  by destruct (num_compare a b) as [[]|].
Qed.

Lemma ordered_cases a b :
  ordered a b = true →
  a = b ∨ (py_lt a b = true ∧ py_lt b a = false)
        ∨ (py_lt b a = true ∧ py_lt a b = false).
Proof.
  unfold ordered. intros H.
  apply orb_prop in H as [H|H]; [apply orb_prop in H as [H|H]|].
  - left. by apply bool_decide_eq_true in H.
  - right. left. split; [done|by apply py_lt_asym].
  - right. right. split; [done|by apply py_lt_asym].
Qed.

Lemma sorted2_ordered a b :
  ordered a b = true → sorted2 a b = (num_min a b, num_max a b).
Proof.
  intros H. unfold sorted2, num_min, num_max.
  destruct (ordered_cases a b H) as [->|[[H1 H2]|[H1 H2]]].
  - by destruct (py_lt b b).
  - by rewrite H1, H2.
  - by rewrite H1, H2.
Qed.

Lemma num_min_max_swap a b :
  ordered a b = true →
  num_min b a = num_min a b ∧ num_max b a = num_max a b.
Proof.
  intros H. unfold num_min, num_max.
  destruct (ordered_cases a b H) as [->|[[H1 H2]|[H1 H2]]]; [done|..];
    by rewrite H1, H2.
Qed.

Lemma ordered_sym a b : ordered b a = ordered a b.
Proof.
  unfold ordered.
  rewrite (bool_decide_ext (b = a) (a = b)) by done.
  by destruct (bool_decide (a = b)), (py_lt a b), (py_lt b a).
Qed.

Lemma sorted2_swap a b : ordered a b = true → sorted2 b a = sorted2 a b.
Proof.
  intros H. rewrite (sorted2_ordered a b H).
  rewrite sorted2_ordered by (by rewrite ordered_sym).
  by destruct (num_min_max_swap a b H) as [-> ->].
Qed.

Lemma box_object_swap a :
  corners_ordered a = true → box_object (swap_corners a) = box_object a.
Proof.
  unfold corners_ordered, swap_corners.
  destruct (points a) as [|[x0 y0] [|[x1 y1] [|]]] eqn:Hpts; try done.
  simpl. intros [Hx Hy]%andb_prop.
  unfold box_object. simpl. rewrite Hpts. simpl.
  destruct (num_min_max_swap x0 x1 Hx) as [-> ->].
  by destruct (num_min_max_swap y0 y1 Hy) as [-> ->].
Qed.

Lemma detection_row_swap_corners classes a :
  corners_ordered a = true →
  detection_row classes (swap_corners a) = detection_row classes a.
Proof.
  unfold corners_ordered, swap_corners.
  destruct (points a) as [|[x0 y0] [|[x1 y1] [|]]] eqn:Hpts; try done.
  simpl. intros [Hx Hy]%andb_prop.
  unfold detection_row. simpl. rewrite Hpts.
  by rewrite (sorted2_swap x0 x1 Hx), (sorted2_swap y0 y1 Hy).
Qed.

Lemma detection_row_swap classes a :
  implb (is_rectangle a) (corners_ordered a) = true →
  detection_row classes (swap_rectangle a) = detection_row classes a.
Proof.
  unfold swap_rectangle. destruct (is_rectangle a); [|done].
  apply detection_row_swap_corners.
Qed.

Lemma detection_rows_swap classes anns :
  rectangles_ordered anns = true →
  detection_rows classes (map swap_rectangle anns) = detection_rows classes anns.
Proof.
  induction anns as [|a r IH]; simpl; [done|].
  intros [Ha Hr]%andb_prop. by rewrite detection_row_swap, IH.
Qed.

Lemma detection_image_swap classes lf :
  rectangles_ordered (annotations lf) = true →
  detection_image classes (swap_rectangles lf) = detection_image classes lf.
Proof.
  intros H. unfold detection_image, detection_xml. simpl.
  by rewrite detection_rows_swap.
Qed.

Lemma rectangles_ordered_scan imageList :
  rectangles_ordered (getAllAnnotations imageList) = true →
  Forall (λ lf, rectangles_ordered (annotations lf) = true) imageList.
Proof.
  rewrite getAllAnnotations_concat. unfold rectangles_ordered.
  induction imageList as [|lf r IH]; simpl; [by constructor|].
  rewrite forallb_app. intros [Hlf Hr]%andb_prop.
  constructor; [done|by apply IH].
Qed.

Lemma detection_loop_swap classes imageList :
  rectangles_ordered (getAllAnnotations imageList) = true →
  for_each (detection_image classes) (map swap_rectangles imageList) =
  for_each (detection_image classes) imageList.
Proof.
  intros H%rectangles_ordered_scan.
  induction H as [|lf r Hlf Hr IH]; simpl; [done|].
  by rewrite IH, detection_image_swap.
Qed.

Lemma segmentation_points_swap a :
  implb (is_rectangle a) (corners_ordered a) = true →
  segmentation_points (swap_rectangle a) = segmentation_points a.
Proof.
  unfold swap_rectangle. destruct (is_rectangle a) eqn:Hrect; [|done].
  simpl. unfold corners_ordered, swap_corners.
  destruct (points a) as [|[x0 y0] [|[x1 y1] [|]]] eqn:Hpts; try done.
  simpl. intros [Hx Hy]%andb_prop.
  unfold segmentation_points, is_rectangle in *. simpl. rewrite Hrect, Hpts.
  by rewrite (sorted2_swap x0 x1 Hx), (sorted2_swap y0 y1 Hy).
Qed.

(** ** COCO images without a retained instance *)

Section CocoImage.
Variable shape_to_mask : nat * nat → list Point → string → Mask.
Variable classes : list (string * Z).
Variable class_names : list string.

Lemma segmentation_points_ok a :
  implb (is_rectangle a) (length (points a) =? 2)%nat = true →
  ∃ pts, segmentation_points a = Ok pts.
Proof.
  unfold segmentation_points. destruct (is_rectangle a); simpl; [|by eexists].
  destruct (points a) as [|[x0 y0] [|[x1 y1] [|]]]; try done.
  intros _. destruct (sorted2 x0 x1), (sorted2 y0 y1). by eexists.
Qed.

Lemma none_retained_set k m masks :
  py_in k.1 class_names = false →
  none_retained class_names masks → none_retained class_names (dict_set k m masks).
Proof.
  intros Hk Hmasks k'. rewrite dict_keys_set. case_bool_decide.
  - apply Hmasks.
  - intros [?| ->%list_elem_of_singleton]%elem_of_app; [by apply Hmasks|done].
Qed.

Lemma coco_shapes_none_retained hw anns acc :
  no_retained_label class_names anns = true →
  corners_ok anns = true →
  none_retained class_names (acc_masks acc) →
  ∃ acc', coco_shapes shape_to_mask hw acc anns = Ok acc' ∧
          none_retained class_names (acc_masks acc').
Proof.
  revert acc. induction anns as [|a r IH]; intros acc Hlabels Hcorners Hacc.
  - by exists acc.
  - apply andb_prop in Hlabels as [Ha Hr].
    apply andb_prop in Hcorners as [Hca Hcr].
    apply negb_true_iff in Ha.
    destruct (segmentation_points_ok a Hca) as [pts Hpts].
    cbn [coco_shapes]. unfold coco_shape.
    assert (Hkey : (instance_of (acc_clock acc) a).1.1 = label a).
    { unfold instance_of. by destruct (group_id a). }
    destruct (instance_of (acc_clock acc) a) as [instance clock].
    rewrite Hpts. cbn [outcome_bind]. apply IH; [done|done|].
    cbn [acc_masks]. simpl in Hkey.
    destruct (dict_get instance (acc_masks acc));
      apply none_retained_set; by rewrite ?Hkey.
Qed.

Lemma coco_instances_none_retained segmentations image_id anns masks :
  none_retained class_names masks →
  coco_instances classes class_names segmentations image_id anns masks = Ok anns.
Proof.
  revert anns. induction masks as [|[k m] r IH]; intros anns Hmasks; [done|].
  cbn [coco_instances coco_instance].
  assert (Hout : py_in k.1 class_names = false).
  { apply (Hmasks k). apply elem_of_cons. by left. }
  rewrite Hout. cbn [negb outcome_bind]. apply IH.
  intros k' Hk'. apply Hmasks. apply elem_of_cons. by right.
Qed.

Lemma retained_instances_none masks :
  none_retained class_names masks →
  retained_instances classes class_names masks = Ok [].
Proof.
  induction masks as [|[[cnm gid] m] r IH]; intros Hmasks; [done|].
  cbn [retained_instances].
  assert (Hout : py_in cnm class_names = false).
  { apply (Hmasks (cnm, gid)). apply elem_of_cons. by left. }
  rewrite Hout. apply IH. intros k' Hk'. apply Hmasks. apply elem_of_cons. by right.
Qed.

Lemma coco_image_none_retained st image_id lf s :
  no_retained_label class_names (annotations lf) = true →
  corners_ok (annotations lf) = true →
  coco_image shape_to_mask classes class_names st (image_id, lf) s =
  (Raised (ValueError UnpackZip),
   <[coco_img_path lf := File (ImageFile (img_shape lf))]> s).
Proof.
  intros Hlabels Hcorners.
  destruct (coco_shapes_none_retained (img_height lf, img_width lf)
              (annotations lf)
              {| acc_masks := []; acc_segmentations := []; acc_clock := st.2 |}
              Hlabels Hcorners) as (acc & Hacc & Hnone).
  { intros k Hk. by apply elem_of_nil in Hk. }
  unfold coco_image, mbind, M_bind, write_file, lift. cbn [fst snd].
  rewrite Hacc. rewrite coco_instances_none_retained by done.
  by rewrite retained_instances_none.
Qed.

End CocoImage.

Lemma first_encounters_unseen seen labels x :
  x ∈ seen → x ∉ first_encounters seen labels.
Proof.
  revert seen. induction labels as [|l r IH]; intros seen Hx; simpl.
  - apply not_elem_of_nil.
  - case_bool_decide as Hl; [by apply IH|].
    apply not_elem_of_cons. split.
    + intros ->. done.
    + apply IH. apply elem_of_cons. by right.
Qed.

Lemma ignore_not_retained anns :
  py_in "__ignore__" (class_names_of (build_classes anns)) = false.
Proof.
  unfold py_in, class_names_of. apply bool_decide_eq_false_2.
  rewrite build_classes_spec. unfold spec_registry. rewrite seed_keys.
  cbn [app tail]. apply not_elem_of_cons. split; [done|].
  apply first_encounters_unseen. apply elem_of_cons. by left.
Qed.

Lemma ignored_no_retained_label anns scope :
  forallb (λ a, String.eqb (label a) "__ignore__") anns = true →
  no_retained_label (class_names_of (build_classes scope)) anns = true.
Proof.
  unfold no_retained_label. induction anns as [|a r IH]; simpl; [done|].
  intros [Ha Hr]%andb_prop. apply String.eqb_eq in Ha.
  by rewrite Ha, ignore_not_retained, IH.
Qed.

(** C9: in the COCO export, an image none of whose annotations carries a
    retained label makes the image loop raise the [ValueError] of unpacking
    the empty [zip()] at the visualization step: only the image copy has
    been written, annotations.json is not written for it and the remaining
    images are not visited.  So an export whose first image carries only
    "__ignore__" shapes raises and leaves no annotations.json. *)
Theorem coco_raises_without_retained_instance
    (shape_to_mask : nat * nat → list Point → string → Mask) :
  (∀ classes st image_id lf post s,
     no_retained_label (class_names_of classes) (annotations lf) = true →
     corners_ok (annotations lf) = true →
     for_fold (coco_image shape_to_mask classes (class_names_of classes))
       ((image_id, lf) :: post) st s =
     (Raised (ValueError UnpackZip),
      <[coco_img_path lf := File (ImageFile (img_shape lf))]> s)) ∧
  (∀ lf post s,
     forallb is_rectangle (getAllAnnotations (lf :: post)) = false →
     forallb (λ a, String.eqb (label a) "__ignore__") (annotations lf) = true →
     corners_ok (annotations lf) = true →
     slot_clear ["COCO"] s →
     ∃ s', onExportCOCO shape_to_mask (lf :: post) s =
             (Raised (ValueError UnpackZip), s') ∧
           s' !! coco_ann_path = None).
Proof.
  split.
  - intros classes st image_id lf post s Hlabels Hcorners.
    cbn [for_fold]. unfold mbind, M_bind.
    by rewrite coco_image_none_retained.
  - intros lf post s Hrect Hignore Hcorners Hclear.
    assert (Hsub : ∀ r, under ["COCO"] ("COCO" :: r)).
    { intros r. by exists r. }
    assert (Hfree : ∀ q, under ["COCO"] q → reset_tree ["COCO"] s !! q = None).
    { intros q Hq. by apply reset_tree_clear. }
    unfold onExportCOCO. rewrite Hrect.
    unfold coco_export.
    pose proof (reset_step ["COCO"] s) as Hreset.
    unfold mbind, M_bind in *.
    destruct (isdir ["COCO"] s) as [[d|e] s1]; [|by inversion Hreset].
    destruct (when d (rmtree ["COCO"]) s1) as [[[]|e] s2];
      inversion Hreset; subst s2.
    rewrite makedirs_free by apply Hfree, Hsub.
    rewrite makedirs_free
      by (rewrite lookup_insert_ne by done; apply Hfree, Hsub).
    rewrite makedirs_free
      by (rewrite !lookup_insert_ne by done; apply Hfree, Hsub).
    cbn [enumerate length seq zip zip_with for_fold]. unfold mbind, M_bind.
    rewrite coco_image_none_retained
      by (try apply ignored_no_retained_label; done).
    eexists. split; [reflexivity|].
    rewrite !lookup_insert_ne by done. apply Hfree, Hsub.
Qed.

Lemma coco_raises_without_retained_instance_witness :
  for_fold
    (coco_image spec_shape_to_mask seed_classes (class_names_of seed_classes))
    (enumerate ignored_then_car) (empty_data, 0%nat) ∅ =
  (Raised (ValueError UnpackZip),
   {[ ["COCO"; "JPEGImages"; "a.jpg"] := File (ImageFile (4, 4, 3)%nat) ]}) ∧
  ∃ s', onExportCOCO spec_shape_to_mask ignored_then_car earlier_voc_tree =
          (Raised (ValueError UnpackZip), s') ∧
        s' !! coco_ann_path = None.
Proof.
  split.
  - apply (proj1 (coco_raises_without_retained_instance spec_shape_to_mask));
      reflexivity.
  - apply (proj2 (coco_raises_without_retained_instance spec_shape_to_mask)).
    + reflexivity.
    + reflexivity.
    + reflexivity.
    + right. intros q [r ->]. unfold earlier_voc_tree.
      rewrite !lookup_insert_ne by (intros [=]). apply lookup_empty.
Defined.

(** ** Instance masks *)

Lemma well_shaped_wf hw m : well_shaped hw m = true → wf_mask hw m.
Proof.
  unfold well_shaped, wf_mask. intros [Hh Hw]%andb_prop.
  split; [by apply Nat.eqb_eq|].
  apply Forall_forall. intros row Hrow%list_elem_of_In.
  rewrite forallb_forall in Hw. by apply Nat.eqb_eq, Hw.
Qed.

Lemma mask_or_wf hw a b :
  wf_mask hw a → wf_mask hw b → wf_mask hw (mask_or a b).
Proof.
  intros [Ha Hra] [Hb Hrb]. unfold mask_or. split.
  - rewrite length_zip_with. lia.
  - apply Forall_lookup. intros y row Hrow.
    apply lookup_zip_with_Some in Hrow as (ra & rb & -> & Hay & Hby).
    rewrite length_zip_with.
    rewrite (Forall_lookup_1 _ _ _ _ Hra Hay), (Forall_lookup_1 _ _ _ _ Hrb Hby).
    lia.
Qed.

Lemma mask_or_get hw a b y x :
  wf_mask hw a → wf_mask hw b →
  mask_get (mask_or a b) y x = mask_get a y x || mask_get b y x.
Proof.
  intros [Ha Hra] [Hb Hrb]. unfold mask_get, mask_or.
  rewrite lookup_zip_with.
  destruct (a !! y) as [ra|] eqn:Hay.
  - destruct (lookup_lt_is_Some_2 b y) as [rb Hby].
    { rewrite Hb, <- Ha. by eapply lookup_lt_Some. }
    rewrite Hby. simpl. rewrite lookup_zip_with.
    destruct (ra !! x) as [va|] eqn:Hax.
    + destruct (lookup_lt_is_Some_2 rb x) as [vb Hbx].
      { rewrite (Forall_lookup_1 _ _ _ _ Hrb Hby),
          <- (Forall_lookup_1 _ _ _ _ Hra Hay).
        by eapply lookup_lt_Some. }
      by rewrite Hbx.
    + simpl. rewrite (lookup_ge_None_2 rb x); [done|].
      rewrite (Forall_lookup_1 _ _ _ _ Hrb Hby),
        <- (Forall_lookup_1 _ _ _ _ Hra Hay).
      by apply lookup_ge_None.
  - simpl. rewrite (lookup_ge_None_2 b y); [done|].
    rewrite Hb, <- Ha. by apply lookup_ge_None.
Qed.

Section UnionLawFacts.
Variable shape_to_mask : nat * nat → list Point → string → Mask.
Variable hw : nat * nat.

Lemma union_of_shapes_snoc k shapes k' a y x :
  union_of_shapes shape_to_mask hw k (shapes ++ [(k', a)]) y x =
  union_of_shapes shape_to_mask hw k shapes y x
  || (bool_decide (k' = k) && mask_get (shape_mask shape_to_mask hw a) y x).
Proof.
  unfold union_of_shapes. rewrite existsb_app. simpl. by rewrite orb_false_r.
Qed.

(** The invariant of the annotation loop: every mask of [masks] has the
    image shape and is the OR of the shapes with its key met so far. *)
Lemma coco_shapes_union anns acc shapes acc' :
  shapes_ok shape_to_mask hw anns = true →
  (∀ k m, dict_get k (acc_masks acc) = Some m → wf_mask hw m) →
  (∀ k y x, mask_get (default [] (dict_get k (acc_masks acc))) y x =
            union_of_shapes shape_to_mask hw k shapes y x) →
  coco_shapes shape_to_mask hw acc anns = Ok acc' →
  ∀ k y x, mask_get (default [] (dict_get k (acc_masks acc'))) y x =
           union_of_shapes shape_to_mask hw k
             (shapes ++ resolve_instances (acc_clock acc) anns) y x.
Proof.
  revert acc shapes. induction anns as [|a r IH]; intros acc shapes Hok Hwf Hinv Hrun.
  - simpl in *. inversion Hrun; subst acc'. by rewrite app_nil_r.
  - apply andb_prop in Hok as [Ha Hr]. apply well_shaped_wf in Ha.
    cbn [coco_shapes] in Hrun. unfold coco_shape in Hrun.
    cbn [resolve_instances].
    destruct (instance_of (acc_clock acc) a) as [key clock].
    destruct (segmentation_points a) as [pts|e]; [|done].
    cbn [outcome_bind fst snd] in *.
    replace (shapes ++ (key, a) :: resolve_instances clock r)
      with ((shapes ++ [(key, a)]) ++ resolve_instances clock r)
      by (by rewrite <- app_assoc).
    match type of Hrun with
    | coco_shapes _ _ ?acc1 _ = _ =>
        apply (IH acc1 (shapes ++ [(key, a)]) Hr); [| |exact Hrun]
    end; cbn [acc_masks].
    + intros k m. destruct (dict_get key (acc_masks acc)) as [old|] eqn:Hold.
      * destruct (decide (key = k)) as [->|Hne].
        -- rewrite dict_get_set_eq. intros [= <-].
           apply mask_or_wf; [by eapply Hwf|done].
        -- rewrite dict_get_set_ne by done. apply Hwf.
      * destruct (decide (key = k)) as [->|Hne].
        -- rewrite dict_get_set_eq. by intros [= <-].
        -- rewrite dict_get_set_ne by done. apply Hwf.
    + intros k y x. rewrite union_of_shapes_snoc, <- Hinv.
      destruct (dict_get key (acc_masks acc)) as [old|] eqn:Hold.
      * destruct (decide (key = k)) as [->|Hne].
        -- rewrite dict_get_set_eq, Hold, bool_decide_eq_true_2 by done.
           simpl. eapply mask_or_get; [by eapply Hwf|done].
        -- rewrite dict_get_set_ne, bool_decide_eq_false_2 by done.
           by rewrite orb_false_r.
      * destruct (decide (key = k)) as [->|Hne].
        -- by rewrite dict_get_set_eq, Hold, bool_decide_eq_true_2 by done.
        -- rewrite dict_get_set_ne, bool_decide_eq_false_2 by done.
           by rewrite orb_false_r.
Qed.

Lemma coco_shapes_total anns acc :
  corners_ok anns = true →
  ∃ acc', coco_shapes shape_to_mask hw acc anns = Ok acc'.
Proof.
  revert acc. induction anns as [|a r IH]; intros acc Hcorners.
  - by exists acc.
  - apply andb_prop in Hcorners as [Hca Hcr].
    destruct (segmentation_points_ok a Hca) as [pts Hpts].
    cbn [coco_shapes]. unfold coco_shape.
    destruct (instance_of (acc_clock acc) a) as [key clock].
    rewrite Hpts. cbn [outcome_bind]. by apply IH.
Qed.

End UnionLawFacts.

Lemma zero_where_ignored_get (cls ins : Raster) y x :
  raster_get (zero_where_ignored cls ins) y x = zeroed_at cls ins y x.
Proof.
  unfold zero_where_ignored, zeroed_at.
  set (g := λ (y x : nat) (i : Z),
         if bool_decide (raster_get cls y x = Some (-1)) then 0 else i).
  change (raster_get (imap (λ y row, imap (g y) row) ins) y x =
          g y x <$> raster_get ins y x).
  unfold raster_get. rewrite list_lookup_imap.
  destruct (ins !! y) as [row|]; simpl; [|done].
  by rewrite list_lookup_imap.
Qed.

(** The instance raster an image of the VOC segmentation export leaves in
    SegmentationObject and SegmentationObjectPNG, whether or not the
    visualization that follows is reached. *)
Lemma segmentation_image_instances
    (annotations_to_label :
       nat * nat * nat → list Annotation → list (string * Z) → Raster * Raster)
    classes class_names lf s :
  let lbl := annotations_to_label (img_shape lf) (annotations lf) classes in
  let s' :=
    (segmentation_image annotations_to_label classes class_names lf s).2 in
  s' !! ins_path lf = Some (File (NpyFile (zero_where_ignored lbl.1 lbl.2))) ∧
  s' !! insp_path lf =
    Some (File (LabelPngFile (zero_where_ignored lbl.1 lbl.2))).
Proof.
  unfold segmentation_image, ins_path, insp_path, mbind, M_bind, write_file.
  cbn zeta.
  destruct (raster_max _) as [top|]; cbn [fst snd raise].
  - split.
    + rewrite lookup_insert_ne by done. apply lookup_insert_eq.
    + rewrite !lookup_insert_ne by done. apply lookup_insert_eq.
  - split.
    + apply lookup_insert_eq.
    + rewrite lookup_insert_ne by done. apply lookup_insert_eq.
Qed.

(** ** The COCO document *)

Section CocoDocument.
Variable shape_to_mask : nat * nat → list Point → string → Mask.

Lemma coco_image_categories classes class_names st entry s st' s' :
  coco_image shape_to_mask classes class_names st entry s = (Ok st', s') →
  categories st'.1 = categories st.1 ∧
  s' !! coco_ann_path = Some (File (CocoJsonFile st'.1)).
Proof.
  unfold coco_image, save_instances_viz, mbind, M_bind, write_file, lift.
  destruct (coco_shapes _ _ _ _) as [acc|e]; [|done].
  destruct (coco_instances _ _ _ _ _ _) as [anns|e]; [|done].
  destruct (retained_instances _ _ _) as [rows|e]; [|done].
  destruct (unzip3 rows) as [cols|e]; [|done].
  destruct (forallb _ cols.1.1); [|done].
  intros [= <- <-]. split; [done|]. apply lookup_insert_eq.
Qed.

(** No iteration of the image loop touches [data["categories"]]. *)
Lemma coco_loop_categories classes class_names entries st s st' s' :
  for_fold (coco_image shape_to_mask classes class_names) entries st s =
    (Ok st', s') →
  categories st'.1 = categories st.1.
Proof.
  revert st s. induction entries as [|e r IH]; intros st s; cbn [for_fold].
  - by intros [= <- <-].
  - unfold mbind, M_bind.
    destruct (coco_image _ _ _ st e s) as [[st1|err] s1] eqn:Hstep; [|done].
    intros Hrest. apply IH in Hrest. rewrite Hrest.
    by apply coco_image_categories in Hstep as [-> _].
Qed.

Lemma coco_export_categories imageList classes s st' s' :
  coco_export shape_to_mask imageList classes s = (Ok st', s') →
  categories st'.1 = [].
Proof.
  unfold coco_export, mbind, M_bind.
  destruct (isdir _ s) as [[d|e] s0]; [|done].
  destruct (when d _ s0) as [[[]|e] s1]; [|done].
  destruct (makedirs _ s1) as [[[]|e] s2]; [|done].
  destruct (makedirs _ s2) as [[[]|e] s3]; [|done].
  destruct (makedirs _ s3) as [[[]|e] s4]; [|done].
  apply coco_loop_categories.
Qed.

(** C1 fails on the code: the export of a circle labelled "car" registers
    the retained labels "_background_" and "car", yet the annotations.json
    it writes has an empty categories array. *)
Theorem coco_categories_left_empty :
  class_names_of (build_classes (getAllAnnotations circles_only)) =
    ["_background_"; "car"] ∧
  ∃ d, (onExportCOCO shape_to_mask circles_only ∅).2 !! coco_ann_path =
         Some (File (CocoJsonFile d)) ∧
       categories d = [].
Proof.
  split; [reflexivity|].
  eexists. split; [vm_compute; reflexivity|reflexivity].
Qed.

(** C8, as the code has it: the scope of the single "car" rectangle builds
    the registry __ignore__ -1, _background_ 0, car 1, and the COCO export
    refuses it, every annotation being a rectangle: it returns [False],
    writes nothing, and so produces no annotation. *)
Theorem car_rectangle_registry_and_refusal :
  build_classes (getAllAnnotations [car_image]) =
    [("__ignore__", -1); ("_background_", 0); ("car", 1)] ∧
  ∀ s, onExportCOCO shape_to_mask [car_image] s = (Ok RetFalse, s).
Proof. split; reflexivity. Qed.

End CocoDocument.

(** C8 as worded fails: no rasterizer makes the COCO export of the single
    "car" rectangle write a document, let alone the annotation. *)
Lemma coco_round_trip_refused :
  ¬ ∃ shape_to_mask, coco_round_trip shape_to_mask [car_image].
Proof. intros (stm & _ & d & a & Hdoc & _). done. Qed.

(** Past the all-rectangle guard the encoder gives the "car" rectangle,
    filled inclusively, the box 10,10,41,41 and the area 1681. *)
Lemma car_rectangle_encoded :
  ∃ acc,
    coco_shapes spec_shape_to_mask (100, 100)%nat
      {| acc_masks := []; acc_segmentations := []; acc_clock := 0 |}
      [car_rectangle] = Ok acc ∧
    coco_instances (build_classes [car_rectangle])
      (class_names_of (build_classes [car_rectangle]))
      (acc_segmentations acc) 0 [] (acc_masks acc) =
    Ok [ {| an_id := 0; an_image_id := 0; an_category_id := 1;
            an_segmentation := [map PyInt [10; 10; 50; 10; 50; 50; 10; 50]];
            an_area := 1681; an_bbox := [10; 10; 41; 41]%nat;
            an_iscrowd := 0 |} ].
Proof. eexists. split; [reflexivity|]. vm_compute. reflexivity. Qed.

(** * Further properties of the export code *)

(** ** The registry as a table *)

Lemma first_encounters_NoDup seen labels :
  NoDup (first_encounters seen labels).
Proof.
  revert seen. induction labels as [|l r IH]; intros seen; simpl.
  - constructor.
  - case_bool_decide; [apply IH|].
    constructor; [|apply IH].
    apply first_encounters_unseen. apply elem_of_cons. by left.
Qed.

Lemma first_encounters_covers seen labels x :
  x ∈ labels → x ∈ seen ∨ x ∈ first_encounters seen labels.
Proof.
  revert seen. induction labels as [|l r IH]; intros seen; simpl.
  - by intros ?%elem_of_nil.
  - intros [->|Hx]%elem_of_cons.
    + case_bool_decide; [by left|]. right. apply elem_of_cons. by left.
    + case_bool_decide.
      * by apply IH.
      * destruct (IH (l :: seen) Hx) as [[->|?]%elem_of_cons|?].
        -- right. apply elem_of_cons. by left.
        -- by left.
        -- right. apply elem_of_cons. by right.
Qed.

Lemma build_classes_keys anns :
  dict_keys (build_classes anns) =
  ["__ignore__"; "_background_"]
    ++ first_encounters ["__ignore__"; "_background_"] (map label anns).
Proof. rewrite build_classes_spec. apply seed_keys. Qed.

Lemma build_classes_NoDup anns : NoDup (dict_keys (build_classes anns)).
Proof.
  rewrite build_classes_keys. apply NoDup_app. split; [|split].
  - apply NoDup_cons. split; [|apply NoDup_singleton].
    by intros [=]%list_elem_of_singleton.
  - intros x Hx. by apply first_encounters_unseen.
  - apply first_encounters_NoDup.
Qed.

Lemma number_from_lookup start labels i k v :
  number_from start labels !! i = Some (k, v) →
  labels !! i = Some k ∧ v = Z.of_nat (start + i).
Proof.
  unfold number_from. intros Hi.
  apply lookup_zip_with_Some in Hi as (k' & v' & [= -> ->] & Hk & Hv).
  split; [done|].
  change (map Z.of_nat (seq start (length labels)))
    with (Z.of_nat <$> seq start (length labels)) in Hv.
  rewrite list_lookup_fmap in Hv.
  destruct (seq start (length labels) !! i) as [n|] eqn:Hn; [|done].
  apply lookup_seq in Hn as [-> _]. by inversion Hv.
Qed.

Section DictLookup.
Context {K V : Type} `{EqDecision K}.

Lemma dict_get_lookup (d : list (K * V)) i k v :
  NoDup (dict_keys d) → d !! i = Some (k, v) → dict_get k d = Some v.
Proof.
  revert i. induction d as [|[k0 v0] d IH]; intros i Hnd Hi; [done|].
  simpl in *. apply NoDup_cons in Hnd as [Hk0 Hnd].
  destruct i as [|i]; simpl in Hi.
  - inversion Hi; subst. by rewrite decide_True.
  - destruct (decide (k = k0)) as [->|Hne]; [|by eapply IH].
    exfalso. apply Hk0. apply list_elem_of_lookup. exists i.
    unfold dict_keys. change (map fst d) with (fst <$> d).
    by rewrite list_lookup_fmap, Hi.
Qed.

Lemma dict_get_Some_elem (d : list (K * V)) k v :
  dict_get k d = Some v → (k, v) ∈ d.
Proof.
  induction d as [|[k0 v0] d IH]; simpl; [done|].
  destruct (decide (k = k0)) as [->|Hne].
  - intros [= ->]. apply elem_of_cons. by left.
  - intros Hd. apply elem_of_cons. right. by apply IH.
Qed.

End DictLookup.

(** X1: the registry is a table without repeated labels in which the id of
    a label is its position minus one, so the ids are -1, 0, 1, 2, ...
    without gaps, and looking a label up gives that id. *)
Theorem registry_ids_are_positions (anns : list Annotation) :
  NoDup (dict_keys (build_classes anns)) ∧
  ∀ i k v,
    build_classes anns !! i = Some (k, v) →
    v = Z.of_nat i - 1 ∧ dict_get k (build_classes anns) = Some v.
Proof.
  split; [apply build_classes_NoDup|].
  intros i k v Hi. split; [|by eapply dict_get_lookup, Hi; apply build_classes_NoDup].
  rewrite build_classes_spec in Hi. unfold spec_registry in Hi.
  destruct i as [|[|i]]; simpl in Hi.
  - by inversion Hi.
  - by inversion Hi.
  - apply number_from_lookup in Hi as [_ ->]. lia.
Qed.

Lemma registry_covers_scan_facts (anns : list Annotation) :
  Forall (λ a, is_Some (dict_get (label a) (build_classes anns))) anns.
Proof.
  apply Forall_forall. intros a Ha.
  destruct (dict_get (label a) (build_classes anns)) as [v|] eqn:Hget; [by eexists|].
  apply dict_get_None in Hget. exfalso. apply Hget.
  rewrite build_classes_keys.
  assert (Hl : label a ∈ map label anns).
  { apply list_elem_of_In, in_map, list_elem_of_In, Ha. }
  apply (first_encounters_covers ["__ignore__"; "_background_"]) in Hl.
  apply elem_of_app. tauto.
Qed.

(** X2: every label met in the scan is in the registry, so the
    [classes[class_name]] of the encoders cannot raise [KeyError] on an
    annotation of the scanned images. *)
Theorem registry_covers_scan (anns : list Annotation) :
  Forall (λ a, is_Some (dict_get (label a) (build_classes anns))) anns.
Proof. apply registry_covers_scan_facts. Qed.

Lemma register_known classes a :
  label a ∈ dict_keys classes → register_class classes a = classes.
Proof.
  intros Hin. unfold register_class, py_in.
  rewrite bool_decide_eq_true_2; [done|]. apply elem_of_app. by left.
Qed.

(** X3: annotations whose labels are already registered leave the registry
    as it is; scanning the same images twice gives the same registry as
    scanning them once. *)
Theorem registry_stable_on_known_labels (anns more : list Annotation) :
  Forall (λ a, label a ∈ dict_keys (build_classes anns)) more →
  build_classes (anns ++ more) = build_classes anns.
Proof.
  intros Hknown. unfold build_classes. rewrite fold_left_app.
  fold (build_classes anns). revert Hknown.
  generalize (build_classes anns) as classes.
  induction more as [|a r IH]; intros classes Hknown; [done|].
  apply Forall_cons in Hknown as [Ha Hr]. simpl.
  rewrite register_known by done. by apply IH.
Qed.

Lemma registry_stable_on_known_labels_witness :
  build_classes (first_scan ++ known_labels_again) = build_classes first_scan.
Proof.
  apply (registry_stable_on_known_labels first_scan known_labels_again).
  repeat constructor; apply bool_decide_unpack; vm_compute; exact I.
Defined.

(** ** Footprints of the export slots *)

Section Preserves.
Context {A B : Type}.
Variable Q : path → Prop.

Lemma preserves_ret (a : A) : preserves Q (mret a).
Proof. by intros s q _. Qed.

Lemma preserves_raise (e : exn) : preserves Q (raise e : M A).
Proof. by intros s q _. Qed.

Lemma preserves_lift (o : outcome A) : preserves Q (lift o).
Proof. by intros s q _. Qed.

Lemma preserves_bind (m : M A) (f : A → M B) :
  preserves Q m → (∀ a, preserves Q (f a)) → preserves Q (m ≫= f).
Proof.
  intros Hm Hf s q Hq. unfold mbind, M_bind.
  specialize (Hm s q Hq). destruct (m s) as [[a|e] s1]; simpl in *.
  - by rewrite Hf.
  - done.
Qed.

End Preserves.

Section PreservesActions.
Variable Q : path → Prop.

Lemma preserves_isdir p : preserves Q (isdir p).
Proof. by intros s q _. Qed.

Lemma preserves_write_file p c :
  (∀ q, Q q → q ≠ p) → preserves Q (write_file p c).
Proof.
  intros Hp s q Hq. unfold write_file. simpl.
  apply lookup_insert_ne. intros ->. by eapply Hp.
Qed.

Lemma preserves_save_instances_viz p labels c :
  (∀ q, Q q → q ≠ p) → preserves Q (save_instances_viz p labels c).
Proof.
  intros Hp. unfold save_instances_viz.
  destruct (forallb _ labels); [by apply preserves_write_file|].
  by intros s q _.
Qed.

Lemma preserves_makedirs p :
  (∀ q, Q q → q ≠ p) → preserves Q (makedirs p).
Proof.
  intros Hp s q Hq. unfold makedirs. destruct (s !! p); simpl; [done|].
  apply lookup_insert_ne. intros ->. by eapply Hp.
Qed.

Lemma preserves_rmtree p :
  (∀ q, Q q → outside p q) → preserves Q (rmtree p).
Proof.
  intros Hp s q Hq. unfold rmtree. simpl.
  destruct (s !! q) as [n|] eqn:Hs.
  - apply map_lookup_filter_Some. split; [done|]. by apply Hp.
  - apply map_lookup_filter_None. by left.
Qed.

Lemma preserves_when b (m : M ()) :
  preserves Q m → preserves Q (when b m).
Proof. intros Hm. destruct b; [done|]. by intros s q _. Qed.

Lemma preserves_for_each {A} (body : A → M ()) xs :
  (∀ x, preserves Q (body x)) → preserves Q (for_each body xs).
Proof.
  intros Hbody. induction xs as [|x r IH]; simpl.
  - apply preserves_ret.
  - apply preserves_bind; [done|]. by intros _.
Qed.

Lemma preserves_for_fold {A S} (body : S → A → M S) xs acc :
  (∀ acc x, preserves Q (body acc x)) → preserves Q (for_fold body xs acc).
Proof.
  intros Hbody. revert acc. induction xs as [|x r IH]; intros acc; simpl.
  - apply preserves_ret.
  - apply preserves_bind; [done|]. intros acc'. apply IH.
Qed.

End PreservesActions.

Lemma outside_ne p r q : outside p q → q ≠ p ++ r.
Proof. intros Hq ->. apply Hq. by exists r. Qed.

(** Breaks an action into its steps, leaving the side conditions on the
    paths it writes. *)
Ltac footprint :=
  repeat first
    [ apply preserves_ret | apply preserves_raise | apply preserves_lift
    | apply preserves_isdir
    | apply preserves_when
    | apply preserves_write_file | apply preserves_save_instances_viz
    | apply preserves_makedirs
    | apply preserves_rmtree
    | apply preserves_for_each; intros ?
    | apply preserves_for_fold; intros ? ?
    | apply preserves_bind; [|intros ?]
    | match goal with
      | |- preserves _ (match ?x with _ => _ end) => destruct x
      end ].

Section SlotFootprints.
Variable annotations_to_label :
  nat * nat * nat → list Annotation → list (string * Z) → Raster * Raster.
Variable shape_to_mask : nat * nat → list Point → string → Mask.

Lemma detection_export_outside imageList classes :
  preserves (outside ["VOC"]) (exportDetectionVOC imageList classes).
Proof.
  unfold exportDetectionVOC, detection_image.
  footprint; intros q Hq; by apply (outside_ne ["VOC"]).
Qed.

Lemma segmentation_export_outside imageList classes :
  preserves (outside ["VOC"])
    (exportSegmentationVOC annotations_to_label imageList classes).
Proof.
  unfold exportSegmentationVOC, segmentation_image.
  footprint; intros q Hq; by apply (outside_ne ["VOC"]).
Qed.

Lemma voc_slot_outside imageList :
  preserves (outside ["VOC"]) (onExportVOC annotations_to_label imageList).
Proof.
  unfold onExportVOC.
  footprint; intros q Hq; first [exact Hq | by apply (outside_ne ["VOC"])].
Qed.

Lemma coco_slot_outside imageList :
  preserves (outside ["COCO"]) (onExportCOCO shape_to_mask imageList).
Proof.
  unfold onExportCOCO, coco_export, coco_image.
  footprint; intros q Hq; first [exact Hq | by apply (outside_ne ["COCO"])].
Qed.

Lemma pixelmap_slot_outside imageList :
  preserves (outside ["PixelMap"])
    (onExportPixelMap annotations_to_label imageList).
Proof.
  unfold onExportPixelMap, pixelmap_image.
  footprint; intros q Hq;
    first [exact Hq | by apply (outside_ne ["PixelMap"])].
Qed.

(** X4: whatever the scope and whether the slot returns or raises, an
    export changes nothing of the output root outside its own subtree:
    VOC for the VOC export, COCO for the COCO export, PixelMap for the
    pixel-map export. *)
Theorem exports_stay_in_their_subtree (imageList : list LabelFile)
    (s : gmap path Node) (q : path) :
  (outside ["VOC"] q →
   (onExportVOC annotations_to_label imageList s).2 !! q = s !! q) ∧
  (outside ["COCO"] q →
   (onExportCOCO shape_to_mask imageList s).2 !! q = s !! q) ∧
  (outside ["PixelMap"] q →
   (onExportPixelMap annotations_to_label imageList s).2 !! q = s !! q).
Proof.
  split; [|split]; intros Hq.
  - by apply voc_slot_outside.
  - by apply coco_slot_outside.
  - by apply pixelmap_slot_outside.
Qed.

End SlotFootprints.

Lemma exports_stay_in_their_subtree_witness :
  (onExportVOC spec_annotations_to_label rectangles_only busy_root).2
    !! ["notes.txt"] = busy_root !! ["notes.txt"] ∧
  (onExportCOCO spec_shape_to_mask circles_only busy_root).2
    !! ["VOC"; "JPEGImages"; "old.jpg"] =
  busy_root !! ["VOC"; "JPEGImages"; "old.jpg"].
Proof.
  split.
  - apply (exports_stay_in_their_subtree spec_annotations_to_label
             spec_shape_to_mask rectangles_only busy_root ["notes.txt"]).
    by intros [r [=]].
  - apply (exports_stay_in_their_subtree spec_annotations_to_label
             spec_shape_to_mask circles_only busy_root
             ["VOC"; "JPEGImages"; "old.jpg"]).
    by intros [r [=]].
Defined.

(** ** A plain file in the place of the subtree *)

Lemma reset_tree_file p s c : s !! p = Some (File c) → reset_tree p s = s.
Proof. intros Hp. unfold reset_tree. by rewrite Hp. Qed.

Lemma makedirs_taken p s n :
  s !! p = Some n → makedirs p s = (Raised FileExistsError, s).
Proof. intros Hp. unfold makedirs. by rewrite Hp. Qed.

Section Blocked.
Variable annotations_to_label :
  nat * nat * nat → list Annotation → list (string * Z) → Raster * Raster.
Variable shape_to_mask : nat * nat → list Point → string → Mask.

Lemma onExportCOCO_unfold imageList s :
  onExportCOCO shape_to_mask imageList s =
  if forallb is_rectangle (getAllAnnotations imageList) then (Ok RetFalse, s)
  else
    ((makedirs ["COCO"] ;;
      makedirs ["COCO"; "JPEGImages"] ;;
      makedirs ["COCO"; "Visualization"] ;;
      for_fold
        (coco_image shape_to_mask (build_classes (getAllAnnotations imageList))
           (class_names_of (build_classes (getAllAnnotations imageList))))
        (enumerate imageList) (empty_data, 0%nat)) ;;
     mret RetNone) (reset_tree ["COCO"] s).
Proof.
  unfold onExportCOCO. destruct (forallb _ _); [done|].
  unfold coco_export.
  pose proof (reset_step ["COCO"] s) as Hreset.
  unfold mbind, M_bind in *.
  destruct (isdir ["COCO"] s) as [[d|e] s1]; [|by inversion Hreset].
  destruct (when d (rmtree ["COCO"]) s1) as [[[]|e] s2]; by inversion Hreset.
Qed.

Lemma onExportPixelMap_unfold imageList s :
  onExportPixelMap annotations_to_label imageList s =
  if forallb is_rectangle (getAllAnnotations imageList) then (Ok RetFalse, s)
  else
    (makedirs ["PixelMap"] ;;
     for_each
       (pixelmap_image annotations_to_label
          (build_classes (getAllAnnotations imageList))) imageList ;;
     mret RetNone) (reset_tree ["PixelMap"] s).
Proof.
  unfold onExportPixelMap. destruct (forallb _ _); [done|].
  pose proof (reset_step ["PixelMap"] s) as Hreset.
  unfold mbind, M_bind in *.
  destruct (isdir ["PixelMap"] s) as [[d|e] s1]; [|by inversion Hreset].
  destruct (when d (rmtree ["PixelMap"]) s1) as [[[]|e] s2]; by inversion Hreset.
Qed.

(** X5: when the name of its subtree is taken by a plain file, an export
    that gets past its scope test raises [FileExistsError] at the first
    [os.makedirs] and leaves the output root as it was: the COCO and
    pixel-map exports on a scope that is not all rectangles, the VOC
    export on a scope that selects detection or segmentation. *)
Theorem exports_blocked_by_plain_file (imageList : list LabelFile)
    (s : gmap path Node) (c : Content) :
  (forallb is_rectangle (getAllAnnotations imageList) = false →
   s !! ["COCO"] = Some (File c) →
   onExportCOCO shape_to_mask imageList s = (Raised FileExistsError, s)) ∧
  (forallb is_rectangle (getAllAnnotations imageList) = false →
   s !! ["PixelMap"] = Some (File c) →
   onExportPixelMap annotations_to_label imageList s =
     (Raised FileExistsError, s)) ∧
  (select_annotation_type (getAllAnnotations imageList) ≠ NoType →
   s !! ["VOC"] = Some (File c) →
   onExportVOC annotations_to_label imageList s = (Raised FileExistsError, s)).
Proof.
  split; [|split].
  - intros Hscope Hfile. rewrite onExportCOCO_unfold, Hscope.
    rewrite (reset_tree_file _ _ c) by done.
    unfold mbind, M_bind. by rewrite (makedirs_taken _ _ _ Hfile).
  - intros Hscope Hfile. rewrite onExportPixelMap_unfold, Hscope.
    rewrite (reset_tree_file _ _ c) by done.
    unfold mbind, M_bind. by rewrite (makedirs_taken _ _ _ Hfile).
  - intros Hscope Hfile. rewrite onExportVOC_unfold.
    rewrite (reset_tree_file _ _ c) by done.
    destruct (select_annotation_type _); [done| |];
      unfold exportDetectionVOC, exportSegmentationVOC, mbind, M_bind;
      by rewrite (makedirs_taken _ _ _ Hfile).
Qed.

End Blocked.

Lemma exports_blocked_by_plain_file_witness :
  onExportCOCO spec_shape_to_mask circles_only blocked_root =
    (Raised FileExistsError, blocked_root) ∧
  onExportPixelMap spec_annotations_to_label circles_only blocked_root =
    (Raised FileExistsError, blocked_root) ∧
  onExportVOC spec_annotations_to_label rectangles_only blocked_root =
    (Raised FileExistsError, blocked_root).
Proof.
  split; [|split].
  - apply (proj1 (exports_blocked_by_plain_file spec_annotations_to_label
                    spec_shape_to_mask circles_only blocked_root
                    (ImageFile (1, 1, 1)%nat))); reflexivity.
  - apply (proj1 (proj2 (exports_blocked_by_plain_file
                           spec_annotations_to_label spec_shape_to_mask
                           circles_only blocked_root
                           (ImageFile (1, 1, 1)%nat)))); reflexivity.
  - apply (proj2 (proj2 (exports_blocked_by_plain_file
                           spec_annotations_to_label spec_shape_to_mask
                           rectangles_only blocked_root
                           (ImageFile (1, 1, 1)%nat)))); [done|reflexivity].
Defined.

(** ** Exporting twice *)

Lemma reset_tree_idem p s : reset_tree p (reset_tree p s) = reset_tree p s.
Proof.
  unfold reset_tree at 1.
  destruct (reset_tree p s !! p) as [[|c]|] eqn:Hp; try done.
  unfold reset_tree in Hp. destruct (s !! p) as [[|c]|] eqn:Hs.
  - apply map_lookup_filter_Some in Hp as [_ Hout]. exfalso. by apply Hout.
  - by rewrite Hs in Hp.
  - by rewrite Hs in Hp.
Qed.

Lemma reset_tree_again p s s1 :
  slot_clear p s →
  (∀ q, outside p q → s1 !! q = reset_tree p s !! q) →
  s1 !! p = Some Dir →
  reset_tree p s1 = reset_tree p s.
Proof.
  intros Hclear Hframe Hdir. apply map_eq. intros q.
  destruct (decide (under p q)) as [Hq|Hq].
  - by rewrite reset_tree_below, reset_tree_clear.
  - rewrite reset_tree_elsewhere by done. by apply Hframe.
Qed.

Lemma root_created {A} p (rest : M A) s0 r s1 :
  preserves (λ q, q = p) rest →
  (makedirs p ;; rest) s0 = (Ok r, s1) → s1 !! p = Some Dir.
Proof.
  intros Hrest. unfold mbind, M_bind, makedirs.
  destruct (s0 !! p); [done|]. intros Hrun.
  specialize (Hrest (<[p:=Dir]> s0) p eq_refl).
  rewrite Hrun in Hrest. simpl in Hrest. by rewrite Hrest, lookup_insert_eq.
Qed.

Lemma then_none_inv (m : M ()) s0 r s1 :
  (m ;; mret RetNone) s0 = (Ok r, s1) → m s0 = (Ok (), s1).
Proof.
  unfold mbind, M_bind. destruct (m s0) as [[[]|e] s']; [|done].
  by intros [= _ ->].
Qed.

Lemma rerun_on_result {A} p (body : M A) s r s1 :
  slot_clear p s →
  preserves (outside p) body →
  s1 !! p = Some Dir →
  body (reset_tree p s) = (Ok r, s1) →
  body (reset_tree p s1) = (Ok r, s1).
Proof.
  intros Hclear Hframe Hdir Hrun.
  rewrite (reset_tree_again p s s1); [done|done| |done].
  intros q Hq. specialize (Hframe (reset_tree p s) q Hq).
  by rewrite Hrun in Hframe.
Qed.

Ltac side_conditions p :=
  intros ? ?; first [ assumption | subst; done | by apply (outside_ne p) ].

Section Twice.
Variable annotations_to_label :
  nat * nat * nat → list Annotation → list (string * Z) → Raster * Raster.
Variable shape_to_mask : nat * nat → list Point → string → Mask.

(** X6: an export that has returned can be run again on the tree it left
    and returns the same value leaving the same tree, provided the name of
    its subtree was a directory or free before the first run. *)
Theorem export_again_leaves_same_tree (imageList : list LabelFile)
    (s s1 : gmap path Node) (r : retval) :
  (slot_clear ["VOC"] s →
   onExportVOC annotations_to_label imageList s = (Ok r, s1) →
   onExportVOC annotations_to_label imageList s1 = (Ok r, s1)) ∧
  (slot_clear ["COCO"] s →
   onExportCOCO shape_to_mask imageList s = (Ok r, s1) →
   onExportCOCO shape_to_mask imageList s1 = (Ok r, s1)) ∧
  (slot_clear ["PixelMap"] s →
   onExportPixelMap annotations_to_label imageList s = (Ok r, s1) →
   onExportPixelMap annotations_to_label imageList s1 = (Ok r, s1)).
Proof.
  split; [|split]; intros Hclear.
  - rewrite !onExportVOC_unfold.
    destruct (select_annotation_type _).
    + intros [= <- <-]. by rewrite reset_tree_idem.
    + intros Hrun. apply (rerun_on_result ["VOC"] _ s); try done.
      * footprint; side_conditions ["VOC"].
      * apply then_none_inv in Hrun. revert Hrun. apply root_created.
        unfold detection_image. footprint; side_conditions ["VOC"].
    + intros Hrun. apply (rerun_on_result ["VOC"] _ s); try done.
      * footprint; side_conditions ["VOC"].
      * apply then_none_inv in Hrun. revert Hrun. apply root_created.
        unfold segmentation_image. footprint; side_conditions ["VOC"].
  - rewrite !onExportCOCO_unfold.
    destruct (forallb _ _); [by intros [= <- <-]|].
    intros Hrun. apply (rerun_on_result ["COCO"] _ s); try done.
    + footprint; side_conditions ["COCO"].
    + unfold mbind at 1, M_bind at 1 in Hrun.
      match type of Hrun with
      | match ?m _ with _ => _ end = _ =>
          destruct (m (reset_tree ["COCO"] s)) as [[u|e] s'] eqn:Hbody;
            [|done]
      end.
      injection Hrun as <- <-. revert Hbody. apply root_created.
      unfold coco_image. footprint; side_conditions ["COCO"].
  - rewrite !onExportPixelMap_unfold.
    destruct (forallb _ _); [by intros [= <- <-]|].
    intros Hrun. apply (rerun_on_result ["PixelMap"] _ s); try done.
    + footprint; side_conditions ["PixelMap"].
    + revert Hrun. apply root_created.
      unfold pixelmap_image. footprint; side_conditions ["PixelMap"].
Qed.

End Twice.

Lemma run_pair {A} (m : M A) s r : (m s).1 = Ok r → m s = (Ok r, (m s).2).
Proof. destruct (m s) as [o s']. simpl. by intros ->. Qed.

Lemma export_again_leaves_same_tree_witness :
  onExportVOC spec_annotations_to_label rectangles_only
    (onExportVOC spec_annotations_to_label rectangles_only earlier_voc_tree).2 =
  (Ok RetNone,
   (onExportVOC spec_annotations_to_label rectangles_only earlier_voc_tree).2) ∧
  onExportCOCO spec_shape_to_mask circles_only
    (onExportCOCO spec_shape_to_mask circles_only ∅).2 =
  (Ok RetNone, (onExportCOCO spec_shape_to_mask circles_only ∅).2).
Proof.
  split.
  - apply (proj1 (export_again_leaves_same_tree spec_annotations_to_label
                    spec_shape_to_mask rectangles_only earlier_voc_tree
                    (onExportVOC spec_annotations_to_label rectangles_only
                       earlier_voc_tree).2
                    RetNone)).
    + left. reflexivity.
    + apply run_pair. vm_compute. reflexivity.
  - apply (proj1 (proj2 (export_again_leaves_same_tree
                           spec_annotations_to_label spec_shape_to_mask
                           circles_only ∅
                           (onExportCOCO spec_shape_to_mask circles_only ∅).2
                           RetNone))).
    + right. intros q _. apply lookup_empty.
    + apply run_pair. vm_compute. reflexivity.
Defined.

(** ** One output per image *)

Lemma string_length_app (s t : string) :
  String.length (s +:+ t) = (String.length s + String.length t)%nat.
Proof. induction s as [|c s IH]; simpl; [done|]. by rewrite IH. Qed.

Lemma append_suffix_inj (s1 s2 t : string) : s1 +:+ t = s2 +:+ t → s1 = s2.
Proof.
  revert s2. induction s1 as [|c s1 IH]; intros [|c2 s2]; simpl; try done.
  - intros Heq. apply (f_equal String.length) in Heq.
    simpl in Heq. rewrite !string_length_app in Heq. simpl in Heq. lia.
  - intros Heq. apply (f_equal String.length) in Heq.
    simpl in Heq. rewrite !string_length_app in Heq. simpl in Heq. lia.
  - intros [= -> Heq]. f_equal. by apply IH.
Qed.

(** A loop whose body always returns and writes, for the item [x], the
    node [node x] at [key x] without touching the key of an item with
    another key: with pairwise distinct keys every item finds its node at
    its key afterwards. *)
Lemma for_each_one_per_item {A} (body : A → M ()) (key : A → path)
    (node : A → Node) (xs : list A) (s : gmap path Node) :
  (∀ x s, x ∈ xs →
     ∃ s', body x s = (Ok (), s') ∧ s' !! key x = Some (node x) ∧
           ∀ y, key y ≠ key x → s' !! key y = s !! key y) →
  NoDup (map key xs) →
  ∃ s', for_each body xs s = (Ok (), s') ∧
        (∀ x, x ∈ xs → s' !! key x = Some (node x)) ∧
        (∀ y, key y ∉ map key xs → s' !! key y = s !! key y).
Proof.
  revert s. induction xs as [|x r IH]; intros s Hbody Hnd.
  - exists s. split; [done|]. split; [|done].
    intros x Hx. by apply elem_of_nil in Hx.
  - simpl in Hnd. apply NoDup_cons in Hnd as [Hx Hnd].
    destruct (Hbody x s) as (s1 & Hrun & Hnode & Hkeep).
    { apply elem_of_cons. by left. }
    destruct (IH s1) as (s' & Hloop & Hall & Hrest); [|done|].
    { intros y s0 Hy. apply Hbody. apply elem_of_cons. by right. }
    exists s'. split; [|split].
    + cbn [for_each]. unfold mbind, M_bind. by rewrite Hrun.
    + intros y [->|Hy]%elem_of_cons; [|by apply Hall].
      by rewrite Hrest.
    + intros y Hy. simpl in Hy. apply not_elem_of_cons in Hy as [Hne Hy].
      rewrite Hrest by done. by apply Hkeep.
Qed.

Lemma annotations_in_scan imageList lf a :
  lf ∈ imageList → a ∈ annotations lf → a ∈ getAllAnnotations imageList.
Proof.
  intros Hlf Ha. rewrite getAllAnnotations_concat.
  apply list_elem_of_In, in_concat. exists (annotations lf).
  split; [|by apply list_elem_of_In].
  apply in_map. by apply list_elem_of_In.
Qed.

(** ** Detection export of two-point boxes *)

Lemma detection_row_box classes a :
  drawable classes a = true →
  length (points a) = 2%nat →
  corners_ordered a = true →
  ∃ row, detection_row classes a = Ok row ∧
         Some (row_object row) = box_object a ∧
         (0 <=? row_label row) = true.
Proof.
  unfold drawable, detection_row, box_object, corners_ordered.
  destruct (dict_get (label a) classes) as [class_id|]; [|done].
  intros Hid Hlen.
  destruct (points a) as [|[x0 y0] [|[x1 y1] [|]]]; try done.
  simpl. intros [Hx Hy]%andb_prop.
  rewrite (sorted2_ordered x0 x1 Hx), (sorted2_ordered y0 y1 Hy).
  by eexists.
Qed.

Lemma detection_rows_boxes classes anns :
  forallb (drawable classes) anns = true →
  two_points anns = true →
  forallb corners_ordered anns = true →
  ∃ rows, detection_rows classes anns = Ok rows ∧
          map Some (map row_object rows) = map box_object anns ∧
          forallb (λ l, 0 <=? l) (map row_label rows) = true.
Proof.
  induction anns as [|a r IH]; simpl.
  - by exists [].
  - intros [Ha Hr]%andb_prop [Hta Htr]%andb_prop [Hoa Hor]%andb_prop.
    apply Nat.eqb_eq in Hta.
    destruct (detection_row_box classes a Ha Hta Hoa)
      as (row & Hrow & Hbox & Hid).
    destruct (IH Hr Htr Hor) as (rows & Hrows & Hboxes & Hids).
    exists (row :: rows). rewrite Hrow, Hrows.
    split; [done|]. simpl. by rewrite Hbox, Hboxes, Hid, Hids.
Qed.

Lemma forallb_part (f : Annotation → bool) imageList lf :
  lf ∈ imageList →
  forallb f (getAllAnnotations imageList) = true →
  forallb f (annotations lf) = true.
Proof.
  intros Hlf Hall. rewrite forallb_forall in *.
  intros a Ha. apply Hall.
  apply list_elem_of_In. eapply annotations_in_scan; [done|].
  by apply list_elem_of_In.
Qed.

Lemma scan_label_drawable anns a :
  a ∈ anns →
  String.eqb (label a) "__ignore__" = false →
  drawable (build_classes anns) a = true.
Proof.
  intros Ha Hne. unfold drawable.
  pose proof (registry_covers_scan_facts anns) as Hreg.
  rewrite Forall_forall in Hreg. destruct (Hreg a Ha) as [v Hv].
  rewrite Hv. apply Z.leb_le.
  apply dict_get_Some_elem in Hv.
  apply list_elem_of_lookup in Hv as [i Hi].
  rewrite build_classes_spec in Hi. unfold spec_registry in Hi.
  destruct i as [|[|i]]; simpl in Hi.
  - injection Hi as Hl _. rewrite <-Hl in Hne. done.
  - by injection Hi as _ <-.
  - apply number_from_lookup in Hi as [_ ->]. lia.
Qed.

Lemma drawable_part imageList lf :
  lf ∈ imageList →
  none_ignored (getAllAnnotations imageList) = true →
  forallb (drawable (build_classes (getAllAnnotations imageList)))
    (annotations lf) = true.
Proof.
  intros Hlf Hnone. apply forallb_forall. intros a Ha.
  apply list_elem_of_In in Ha.
  apply scan_label_drawable; [by eapply annotations_in_scan|].
  unfold none_ignored in Hnone. rewrite forallb_forall in Hnone.
  apply negb_true_iff, Hnone, list_elem_of_In.
  by eapply annotations_in_scan.
Qed.

Lemma detection_image_ok classes lf rows s :
  detection_rows classes (annotations lf) = Ok rows →
  forallb (λ l, 0 <=? l) (map row_label rows) = true →
  detection_image classes lf s =
  (Ok (),
   <[xml_path lf := File (VocXmlFile (detection_xml lf rows))]>
     (<[ ["VOC"; "AnnotationsVisualization"; base lf +:+ ".jpg"] :=
           File (BboxVizFile (map row_label rows) (map row_bbox rows)
                   (map row_caption rows)) ]>
        (<[ ["VOC"; "JPEGImages"; base lf +:+ ".jpg"] :=
              File (ImageFile (img_shape lf)) ]> s))).
Proof.
  intros Hrows Hids.
  unfold detection_image, save_instances_viz, mbind, M_bind, lift, write_file.
  by rewrite Hrows, Hids.
Qed.

Lemma xml_paths_distinct imageList :
  NoDup (map base imageList) → NoDup (map xml_path imageList).
Proof.
  induction imageList as [|lf r IH]; simpl; [constructor|].
  intros [Hlf Hr]%NoDup_cons. apply NoDup_cons. split; [|by apply IH].
  intros Hin. apply Hlf.
  apply list_elem_of_In, in_map_iff in Hin as (lf' & Hpath & Hin').
  apply list_elem_of_In, in_map_iff. exists lf'. split; [|done].
  unfold xml_path in Hpath. injection Hpath as Hpath.
  by apply append_suffix_inj in Hpath.
Qed.

Section DetectionExport.
Variable annotations_to_label :
  nat * nat * nat → list Annotation → list (string * Z) → Raster * Raster.


End DetectionExport.


(** ** Instance keys *)

Lemma resolve_instances_lookup clock anns i k a :
  resolve_instances clock anns !! i = Some (k, a) →
  anns !! i = Some a ∧
  match group_id a with
  | Some g => k = (label a, Given g)
  | None => ∃ n, k = (label a, Fresh n) ∧ (clock ≤ n)%nat
  end.
Proof.
  revert clock i. induction anns as [|a0 r IH]; intros clock i; [done|].
  cbn [resolve_instances]. destruct i as [|i]; simpl.
  - intros [= <- <-]. split; [done|]. unfold instance_of.
    destruct (group_id a0); [done|]. by exists clock.
  - intros Hi. apply IH in Hi as [Hr Hk]. split; [done|].
    destruct (group_id a); [done|]. destruct Hk as (n & -> & Hn).
    exists n. split; [done|]. unfold instance_of in Hn.
    destruct (group_id a0); simpl in Hn; lia.
Qed.

Lemma resolve_instances_head_fresh clock anns a j k aj :
  group_id a = None →
  resolve_instances (S clock) anns !! j = Some (k, aj) →
  k ≠ (label a, Fresh clock).
Proof.
  intros Ha Hj. apply resolve_instances_lookup in Hj as [_ Hk].
  destruct (group_id aj).
  - by rewrite Hk.
  - destruct Hk as (n & -> & Hn). intros [= _ ->]. lia.
Qed.

(** X8: two shapes of an image fall into the same instance exactly when
    they carry the same label and the same group id; a shape without group
    id shares its instance with no other shape. *)
Theorem same_instance_same_label_and_group (clock : nat)
    (anns : list Annotation) (i j : nat) (ki kj : InstanceKey)
    (ai aj : Annotation) :
  resolve_instances clock anns !! i = Some (ki, ai) →
  resolve_instances clock anns !! j = Some (kj, aj) →
  ki = kj ↔
  i = j ∨ (label ai = label aj ∧ is_Some (group_id ai)
           ∧ group_id ai = group_id aj).
Proof.
  revert clock i j. induction anns as [|a r IH]; intros clock i j; [done|].
  cbn [resolve_instances]. destruct i as [|i], j as [|j]; simpl.
  - intros [= <- <-] [= <- <-]. split; [by left|done].
  - intros [= <- <-] Hj. unfold instance_of in *.
    destruct (group_id a) as [g|] eqn:Hg; simpl in *.
    + apply resolve_instances_lookup in Hj as [_ Hk].
      destruct (group_id aj) as [g'|] eqn:Hg'.
      * subst kj. split.
        -- intros [= -> ->]. right. split; [done|]. split; [by eexists|done].
        -- intros [?|(-> & _ & [= ->])]; done.
      * destruct Hk as (n & -> & _). split; [done|].
        intros [?|(_ & _ & ?)]; done.
    + split.
      * intros <-. exfalso.
        by eapply (resolve_instances_head_fresh clock r a), eq_refl.
      * intros [?|(_ & [g Hsome] & _)]; done.
  - intros Hi [= <- <-]. unfold instance_of in *.
    destruct (group_id a) as [g|] eqn:Hg; simpl in *.
    + apply resolve_instances_lookup in Hi as [_ Hk].
      destruct (group_id ai) as [g'|] eqn:Hg'.
      * subst ki. split.
        -- intros [= -> ->]. right. split; [done|]. split; [by eexists|done].
        -- intros [?|(-> & _ & [= ->])]; done.
      * destruct Hk as (n & -> & _). split; [done|].
        intros [?|(_ & [g0 Hsome] & _)]; done.
    + split.
      * intros ->. exfalso.
        by eapply (resolve_instances_head_fresh clock r a), eq_refl.
      * intros [?|(_ & [g Hsome] & Heq)]; [done|].
        rewrite Hsome in Heq. done.
  - intros Hi Hj. rewrite (IH _ i j Hi Hj). split.
    + intros [->|?]; [by left|by right].
    + intros [[= ->]|?]; [by left|by right].
Qed.

Lemma same_instance_same_label_and_group_witness :
  (("car", Given 1) : InstanceKey) = ("car", Given 1) ↔
  0%nat = 2%nat ∨
  ("car" = "car" ∧ is_Some (Some 1) ∧ Some 1 = Some 1).
Proof.
  apply (same_instance_same_label_and_group 0 two_part_car 0 2
           ("car", Given 1) ("car", Given 1)
           (mkAnnotation "car" "rectangle" [pt 0 0; pt 1 1] (Some 1))
           (mkAnnotation "car" "rectangle" [pt 4 2; pt 3 1] (Some 1)));
    reflexivity.
Defined.

(** ** The COCO document *)

Section CocoIds.
Variable shape_to_mask : nat * nat → list Point → string → Mask.
Variable classes : list (string * Z).
Variable class_names : list string.

Lemma annotations_ok_grow n m anns :
  (n ≤ m)%nat → annotations_ok classes class_names n anns →
  annotations_ok classes class_names m anns.
Proof.
  intros Hnm [Hids Hall]. split; [done|].
  eapply Forall_impl; [exact Hall|]. intros a [Hlt Hcat]. split; [lia|done].
Qed.

Lemma coco_instance_ok segmentations image_id n anns entry anns' :
  (image_id < n)%nat →
  annotations_ok classes class_names n anns →
  coco_instance classes class_names segmentations image_id anns entry
    = Ok anns' →
  annotations_ok classes class_names n anns'.
Proof.
  intros Hid [Hids Hall]. destruct entry as [k m]. unfold coco_instance.
  destruct (py_in k.1 class_names) eqn:Hin; simpl; [|by intros [= <-]].
  destruct (dict_get k.1 classes) as [class_id|] eqn:Hclass; [|done].
  destruct (dict_get k segmentations) as [seg|]; [|done].
  intros [= <-]. split.
  - rewrite map_app, length_app, Hids. simpl.
    by rewrite Nat.add_1_r, seq_S.
  - apply Forall_app. split; [done|]. apply Forall_singleton. simpl.
    split; [done|]. by exists k.1.
Qed.

Lemma coco_instances_ok segmentations image_id n entries anns anns' :
  (image_id < n)%nat →
  annotations_ok classes class_names n anns →
  coco_instances classes class_names segmentations image_id anns entries
    = Ok anns' →
  annotations_ok classes class_names n anns'.
Proof.
  intros Hid. revert anns. induction entries as [|e r IH]; intros anns Hok.
  - by intros [= <-].
  - cbn [coco_instances].
    destruct (coco_instance _ _ _ _ anns e) as [anns1|err] eqn:Hstep; [|done].
    cbn [outcome_bind]. apply IH. by eapply coco_instance_ok.
Qed.

Lemma coco_image_ok st entry s st' s' n :
  (entry.1 < n)%nat →
  annotations_ok classes class_names n (coco_annotations st.1) →
  coco_image shape_to_mask classes class_names st entry s = (Ok st', s') →
  images st'.1 = images st.1 ++ [image_entry entry] ∧
  annotations_ok classes class_names n (coco_annotations st'.1).
Proof.
  intros Hid Hok.
  unfold coco_image, save_instances_viz, mbind, M_bind, write_file, lift.
  destruct (coco_shapes _ _ _ _) as [acc|e]; [|done].
  destruct (coco_instances _ _ _ _ _ _) as [anns|e] eqn:Hanns; [|done].
  destruct (retained_instances _ _ _) as [rows|e]; [|done].
  destruct (unzip3 rows) as [cols|e]; [|done].
  destruct (forallb _ cols.1.1); [|done].
  intros [= <- <-]. split; [done|]. simpl in *.
  by eapply coco_instances_ok.
Qed.

Lemma coco_loop_ok entries st s st' s' n :
  Forall (λ e, (e.1 < n)%nat) entries →
  annotations_ok classes class_names n (coco_annotations st.1) →
  for_fold (coco_image shape_to_mask classes class_names) entries st s
    = (Ok st', s') →
  images st'.1 = images st.1 ++ map image_entry entries ∧
  annotations_ok classes class_names n (coco_annotations st'.1) ∧
  (entries ≠ [] → s' !! coco_ann_path = Some (File (CocoJsonFile st'.1))).
Proof.
  revert st s. induction entries as [|e r IH]; intros st s Hids Hok.
  - intros [= <- <-]. by rewrite app_nil_r.
  - apply Forall_cons in Hids as [He Hr]. cbn [for_fold].
    unfold mbind, M_bind.
    destruct (coco_image _ _ _ st e s) as [[st1|err] s1] eqn:Hstep; [|done].
    intros Hrest.
    destruct (coco_image_ok _ _ _ _ _ n He Hok Hstep) as [Him Hok1].
    apply coco_image_categories in Hstep as [_ Hdoc].
    destruct (IH st1 s1 Hr Hok1 Hrest) as (Him' & Hok' & Hdoc').
    split; [|split; [done|]].
    + rewrite Him', Him. simpl. by rewrite <- app_assoc.
    + intros _. destruct r as [|e' r']; [|by apply Hdoc'].
      simpl in Hrest. by inversion Hrest; subst.
Qed.

End CocoIds.

Lemma retained_id_nonneg anns l v :
  py_in l (class_names_of (build_classes anns)) = true →
  dict_get l (build_classes anns) = Some v →
  0 ≤ v.
Proof.
  intros Hin Hget. apply dict_get_Some_elem in Hget.
  apply list_elem_of_lookup in Hget as [i Hi].
  rewrite build_classes_spec in Hi. unfold spec_registry in Hi.
  destruct i as [|[|i]]; simpl in Hi.
  - injection Hi as <- <-. by rewrite ignore_not_retained in Hin.
  - by injection Hi as <- <-.
  - apply number_from_lookup in Hi as [_ ->]. lia.
Qed.

Lemma enumerate_ids {A} (xs : list A) :
  Forall (λ e, (e.1 < length xs)%nat) (enumerate xs).
Proof.
  unfold enumerate. apply Forall_lookup. intros i [n x] Hi.
  apply lookup_zip_with_Some in Hi as (n' & x' & [= -> ->] & Hn & _).
  apply lookup_seq in Hn as [-> Hlt]. simpl. lia.
Qed.

Section CocoDocumentIds.
Variable shape_to_mask : nat * nat → list Point → string → Mask.

(** X9: when the COCO export has returned [None], annotations.json holds
    one image entry per image of the list, in list order, with the
    position in the list as id; the annotation ids count 0, 1, 2, ...
    through the whole document; every annotation refers to an image of the
    list and has a category id that is not negative. *)
Theorem coco_document_ids (imageList : list LabelFile)
    (s s' : gmap path Node) :
  onExportCOCO shape_to_mask imageList s = (Ok RetNone, s') →
  ∃ d, s' !! coco_ann_path = Some (File (CocoJsonFile d)) ∧
       images d = map image_entry (enumerate imageList) ∧
       map an_id (coco_annotations d) = seq 0 (length (coco_annotations d)) ∧
       Forall (λ a, (an_image_id a < length imageList)%nat
                    ∧ 0 ≤ an_category_id a) (coco_annotations d).
Proof.
  rewrite onExportCOCO_unfold.
  destruct (forallb is_rectangle (getAllAnnotations imageList)) eqn:Hscope;
    [done|].
  assert (Hsome : enumerate imageList ≠ []).
  { destruct imageList; [done|]. done. }
  set (classes := build_classes (getAllAnnotations imageList)).
  unfold mbind, M_bind.
  destruct (makedirs ["COCO"] _) as [[[]|e] s1]; [|done].
  destruct (makedirs ["COCO"; "JPEGImages"] s1) as [[[]|e] s2]; [|done].
  destruct (makedirs ["COCO"; "Visualization"] s2) as [[[]|e] s3]; [|done].
  destruct (for_fold _ _ _ s3) as [[st|e] s4] eqn:Hloop; [|done].
  intros [= <-].
  apply (coco_loop_ok _ _ _ _ _ _ _ _ (length imageList)) in Hloop
    as (Himages & [Hids Hall] & Hdoc).
  - exists st.1. split; [by apply Hdoc|]. split; [done|]. split; [done|].
    eapply Forall_impl; [exact Hall|]. intros a [Hlt (l & Hin & Hget)].
    split; [done|]. by eapply retained_id_nonneg.
  - apply enumerate_ids.
  - split; [done|]. constructor.
Qed.

End CocoDocumentIds.

Lemma coco_document_ids_witness :
  ∃ d, (onExportCOCO spec_shape_to_mask circles_only ∅).2 !! coco_ann_path =
         Some (File (CocoJsonFile d)) ∧
       images d = map image_entry (enumerate circles_only) ∧
       map an_id (coco_annotations d) = seq 0 (length (coco_annotations d)) ∧
       Forall (λ a, (an_image_id a < length circles_only)%nat
                    ∧ 0 ≤ an_category_id a) (coco_annotations d).
Proof.
  apply (coco_document_ids spec_shape_to_mask circles_only ∅).
  apply run_pair. vm_compute. reflexivity.
Defined.

(** ** Corner order of rectangles *)

Lemma swap_rectangle_fields a :
  label (swap_rectangle a) = label a ∧
  shape_type (swap_rectangle a) = shape_type a ∧
  group_id (swap_rectangle a) = group_id a.
Proof.
  unfold swap_rectangle, swap_corners.
  destruct (is_rectangle a); [|done].
  by destruct (points a) as [|p [|q [|]]].
Qed.

Lemma swap_rectangle_kind a :
  is_rectangle (swap_rectangle a) = is_rectangle a ∧
  is_polygon (swap_rectangle a) = is_polygon a.
Proof.
  unfold is_rectangle, is_polygon.
  by destruct (swap_rectangle_fields a) as (_ & -> & _).
Qed.

Lemma getAllAnnotations_swap imageList :
  getAllAnnotations (map swap_rectangles imageList) =
  map swap_rectangle (getAllAnnotations imageList).
Proof.
  rewrite !getAllAnnotations_concat.
  induction imageList as [|lf r IH]; simpl; [done|].
  by rewrite map_app, IH.
Qed.

Lemma scan_swap anns :
  forallb is_rectangle (map swap_rectangle anns) = forallb is_rectangle anns ∧
  existsb is_polygon (map swap_rectangle anns) = existsb is_polygon anns ∧
  build_classes (map swap_rectangle anns) = build_classes anns.
Proof.
  split; [|split].
  - induction anns as [|a r IH]; simpl; [done|].
    by rewrite IH, (proj1 (swap_rectangle_kind a)).
  - induction anns as [|a r IH]; simpl; [done|].
    by rewrite IH, (proj2 (swap_rectangle_kind a)).
  - rewrite !build_classes_spec. f_equal.
    induction anns as [|a r IH]; simpl; [done|].
    by rewrite IH, (proj1 (swap_rectangle_fields a)).
Qed.

Lemma box_object_swap_rectangle a :
  implb (is_rectangle a) (corners_ordered a) = true →
  box_object (swap_rectangle a) = box_object a.
Proof.
  unfold swap_rectangle. destruct (is_rectangle a); [|done].
  apply box_object_swap.
Qed.

Lemma polygon_of_swap a :
  implb (is_rectangle a) (corners_ordered a) = true →
  polygon_of (swap_rectangle a) = polygon_of a.
Proof.
  unfold swap_rectangle. destruct (is_rectangle a) eqn:Hrect; [|done].
  simpl. unfold corners_ordered, swap_corners.
  destruct (points a) as [|[x0 y0] [|[x1 y1] [|]]] eqn:Hpts; try done.
  simpl. intros [Hx Hy]%andb_prop.
  unfold polygon_of, is_rectangle in *. simpl. rewrite Hrect, Hpts. simpl.
  destruct (num_min_max_swap x0 x1 Hx) as [-> ->].
  by destruct (num_min_max_swap y0 y1 Hy) as [-> ->].
Qed.

Lemma segmentation_points_polygon a pts :
  implb (is_rectangle a) (corners_ordered a) = true →
  segmentation_points a = Ok pts → pts = polygon_of a.
Proof.
  unfold segmentation_points, polygon_of, corners_ordered.
  destruct (is_rectangle a); simpl; [|by intros _ [= <-]].
  destruct (points a) as [|[x0 y0] [|[x1 y1] [|]]]; try done.
  simpl. intros [Hx Hy]%andb_prop.
  rewrite (sorted2_ordered x0 x1 Hx), (sorted2_ordered y0 y1 Hy).
  by intros [= <-].
Qed.

Lemma keys_of_snoc shapes k a :
  keys_of (shapes ++ [(k, a)]) =
  if bool_decide (k ∈ keys_of shapes) then keys_of shapes
  else keys_of shapes ++ [k].
Proof. unfold keys_of. by rewrite fold_left_app. Qed.

Lemma polygons_of_snoc k shapes k' a :
  polygons_of k (shapes ++ [(k', a)]) =
  polygons_of k shapes ++ (if decide (k' = k) then [polygon_of a] else []).
Proof.
  unfold polygons_of. rewrite filter_app, map_app. f_equal.
  rewrite filter_cons. simpl. by destruct (decide (k' = k)).
Qed.

Section Segmentations.
Variable shape_to_mask : nat * nat → list Point → string → Mask.

(** The invariant of the annotation loop on the keys of [masks] and on
    [segmentations]. *)
Lemma coco_shapes_segmentations hw anns acc shapes acc' :
  rectangles_ordered anns = true →
  dict_keys (acc_masks acc) = keys_of shapes →
  dict_keys (acc_segmentations acc) = keys_of shapes →
  (∀ k, default [] (dict_get k (acc_segmentations acc)) =
        polygons_of k shapes) →
  coco_shapes shape_to_mask hw acc anns = Ok acc' →
  let shapes' := shapes ++ resolve_instances (acc_clock acc) anns in
  dict_keys (acc_masks acc') = keys_of shapes' ∧
  dict_keys (acc_segmentations acc') = keys_of shapes' ∧
  ∀ k, default [] (dict_get k (acc_segmentations acc')) =
       polygons_of k shapes'.
Proof.
  revert acc shapes.
  induction anns as [|a r IH]; intros acc shapes Hord Hkm Hks Hsegs Hrun.
  - simpl in *. inversion Hrun; subst acc'. by rewrite app_nil_r.
  - apply andb_prop in Hord as [Ha Hr].
    cbn [coco_shapes] in Hrun. unfold coco_shape in Hrun.
    cbn [resolve_instances].
    destruct (instance_of (acc_clock acc) a) as [key clock].
    destruct (segmentation_points a) as [pts|e] eqn:Hpts; [|done].
    apply (segmentation_points_polygon a pts Ha) in Hpts. subst pts.
    cbn [outcome_bind fst snd] in *.
    replace (shapes ++ (key, a) :: resolve_instances clock r)
      with ((shapes ++ [(key, a)]) ++ resolve_instances clock r)
      by (by rewrite <- app_assoc).
    match type of Hrun with
    | coco_shapes _ _ ?acc1 _ = _ =>
        apply (IH acc1 (shapes ++ [(key, a)]) Hr); [| | |exact Hrun]
    end; cbn [acc_masks acc_segmentations].
    + rewrite keys_of_snoc, <- Hkm.
      destruct (dict_get key (acc_masks acc)); apply dict_keys_set.
    + rewrite keys_of_snoc, <- Hks. unfold dict_append. apply dict_keys_set.
    + intros k. rewrite polygons_of_snoc, <- Hsegs. unfold dict_append.
      destruct (decide (key = k)) as [->|Hne].
      * by rewrite dict_get_set_eq.
      * rewrite dict_get_set_ne by done. by rewrite app_nil_r.
Qed.

Lemma coco_instances_segmentations classes class_names segmentations
    image_id (f : InstanceKey → list (list Num)) entries anns anns' :
  (∀ k, k ∈ dict_keys entries →
        default [] (dict_get k segmentations) = f k) →
  coco_instances classes class_names segmentations image_id anns entries
    = Ok anns' →
  ∃ new, anns' = anns ++ new ∧
         map an_segmentation new =
         map f (filter (λ k, py_in k.1 class_names = true)
                  (dict_keys entries)).
Proof.
  revert anns. induction entries as [|[k m] r IH]; intros anns Hsegs.
  - intros [= <-]. exists []. by rewrite app_nil_r.
  - cbn [coco_instances coco_instance]. simpl dict_keys.
    rewrite filter_cons. cbn [fst].
    assert (Hk : default [] (dict_get k segmentations) = f k).
    { apply Hsegs. apply elem_of_cons. by left. }
    assert (Hr : ∀ k', k' ∈ dict_keys r →
              default [] (dict_get k' segmentations) = f k').
    { intros k' Hk'. apply Hsegs. apply elem_of_cons. by right. }
    destruct (py_in k.1 class_names) eqn:Hin; cbn [negb].
    + destruct (dict_get k.1 classes) as [class_id|]; [|done].
      destruct (dict_get k segmentations) as [seg|]; [|done].
      cbn [outcome_bind]. intros Hrun.
      destruct (IH _ Hr Hrun) as (new & -> & Hnew).
      eexists (_ :: new). rewrite <- app_assoc. split; [done|].
      rewrite decide_True by done. simpl in *. by rewrite Hnew, Hk.
    + cbn [outcome_bind]. intros Hrun.
      destruct (IH _ Hr Hrun) as (new & -> & Hnew).
      exists new. split; [done|]. by rewrite decide_False.
Qed.

(** What one image adds to the document, and the document it leaves. *)
Lemma coco_image_segmentations classes class_names st i lf s st' s' :
  rectangles_ordered (annotations lf) = true →
  coco_image shape_to_mask classes class_names st (i, lf) s = (Ok st', s') →
  s' !! coco_ann_path = Some (File (CocoJsonFile st'.1)) ∧
  ∃ new,
    coco_annotations st'.1 = coco_annotations st.1 ++ new ∧
    map an_segmentation new =
    map (λ k, polygons_of k (resolve_instances st.2 (annotations lf)))
      (retained_keys class_names (resolve_instances st.2 (annotations lf))).
Proof.
  intros Hord Hrun.
  split; [by apply coco_image_categories in Hrun as [_ ?]|].
  revert Hrun.
  unfold coco_image, save_instances_viz, mbind, M_bind, write_file, lift.
  cbn [fst snd].
  destruct (coco_shapes _ _ _ _) as [acc|e] eqn:Hacc; [|done].
  destruct (coco_shapes_segmentations _ _
              {| acc_masks := []; acc_segmentations := []; acc_clock := st.2 |}
              [] _ Hord eq_refl eq_refl (λ _, eq_refl) Hacc)
    as (Hkeys & _ & Hsegs).
  cbn [acc_clock app] in Hkeys, Hsegs.
  destruct (coco_instances _ _ _ _ _ _) as [anns|e] eqn:Hanns; [|done].
  destruct (retained_instances _ _ _) as [rows|e]; [|done].
  destruct (unzip3 rows) as [cols|e]; [|done].
  destruct (forallb _ cols.1.1); [|done].
  intros [= <- <-]. cbn [fst coco_annotations] in *.
  eapply coco_instances_segmentations in Hanns as (new & -> & Hnew);
    [|intros k _; apply Hsegs].
  exists new. split; [done|]. unfold retained_keys. by rewrite <- Hkeys.
Qed.

End Segmentations.

Lemma keys_of_covers shapes k : k ∈ map fst shapes → k ∈ keys_of shapes.
Proof.
  induction shapes as [|[k' a] shapes IH] using rev_ind; [done|].
  rewrite map_app, keys_of_snoc. simpl.
  intros [Hk| ->%list_elem_of_singleton]%elem_of_app.
  - apply IH in Hk. case_bool_decide; [done|].
    apply elem_of_app. by left.
  - case_bool_decide; [done|]. apply elem_of_app. right.
    by apply list_elem_of_singleton.
Qed.

Lemma instance_of_label clock a : (instance_of clock a).1.1 = label a.
Proof. unfold instance_of. by destruct (group_id a). Qed.

Lemma some_retained_key class_names clock anns :
  no_retained_label class_names anns = false →
  retained_keys class_names (resolve_instances clock anns) ≠ [].
Proof.
  intros Hsome.
  assert (Hk : ∃ k, k ∈ map fst (resolve_instances clock anns) ∧
                    py_in k.1 class_names = true).
  { revert clock Hsome. induction anns as [|a r IH]; intros clock; [done|].
    simpl. destruct (py_in (label a) class_names) eqn:Hin; simpl.
    - intros _. exists (instance_of clock a).1.
      split; [apply elem_of_cons; by left|].
      by rewrite instance_of_label.
    - intros Hr.
      destruct (IH (instance_of clock a).2 Hr) as (k & Hk & Hin').
      exists k. split; [apply elem_of_cons; by right|done]. }
  destruct Hk as (k & Hk & Hin). apply keys_of_covers in Hk.
  unfold retained_keys. intros Hnil.
  assert (Hmem : k ∈ filter (λ k, py_in k.1 class_names = true)
                      (keys_of (resolve_instances clock anns))).
  { by apply list_elem_of_filter. }
  rewrite Hnil in Hmem. by apply elem_of_nil in Hmem.
Qed.

Section CocoSuccess.
Variable shape_to_mask : nat * nat → list Point → string → Mask.
Variable classes : list (string * Z).
Variable class_names : list string.
Hypothesis Hret : retained_drawable classes class_names = true.

Lemma retained_label_id l :
  py_in l class_names = true →
  ∃ class_id, dict_get l classes = Some class_id ∧ (0 <=? class_id) = true.
Proof.
  intros Hin%bool_decide_eq_true.
  unfold retained_drawable in Hret. rewrite forallb_forall in Hret.
  apply list_elem_of_In, Hret in Hin.
  destruct (dict_get l classes) as [class_id|]; [|done]. by exists class_id.
Qed.

Lemma coco_instances_total segmentations image_id entries anns :
  (∀ k, k ∈ dict_keys entries → is_Some (dict_get k segmentations)) →
  ∃ anns',
    coco_instances classes class_names segmentations image_id anns entries
      = Ok anns'.
Proof.
  revert anns. induction entries as [|[k m] r IH]; intros anns Hsegs.
  - by exists anns.
  - cbn [coco_instances coco_instance].
    assert (Hr : ∀ k', k' ∈ dict_keys r →
              is_Some (dict_get k' segmentations)).
    { intros k' Hk'. apply Hsegs. apply elem_of_cons. by right. }
    destruct (py_in k.1 class_names) eqn:Hin; cbn [negb].
    + destruct (retained_label_id _ Hin) as (class_id & -> & _).
      destruct (Hsegs k) as [seg ->]; [apply elem_of_cons; by left|].
      cbn [outcome_bind]. by apply IH.
    + cbn [outcome_bind]. by apply IH.
Qed.

Lemma retained_instances_total entries :
  ∃ rows,
    retained_instances classes class_names entries = Ok rows ∧
    forallb (λ l, 0 <=? l) (map (λ r, r.1.1) rows) = true ∧
    (rows = [] →
     filter (λ k, py_in k.1 class_names = true) (dict_keys entries) = []).
Proof.
  induction entries as [|[[cnm gid] m] r (rows & Hrows & Hids & Hnil)].
  - by exists [].
  - cbn [retained_instances]. simpl dict_keys. rewrite filter_cons. cbn [fst].
    destruct (py_in cnm class_names) eqn:Hin.
    + destruct (retained_label_id _ Hin) as (class_id & -> & Hid).
      rewrite Hrows. cbn [outcome_bind]. eexists. split; [done|].
      simpl. by rewrite Hid, Hids.
    + exists rows. by rewrite decide_False.
Qed.

(** An image with a retained instance, its rectangles of two points:
    the body of the image loop returns. *)
Lemma coco_image_returns st i lf s :
  rectangles_ordered (annotations lf) = true →
  corners_ok (annotations lf) = true →
  no_retained_label class_names (annotations lf) = false →
  ∃ st' s',
    coco_image shape_to_mask classes class_names st (i, lf) s = (Ok st', s').
Proof.
  intros Hord Hcorners Hsome.
  unfold coco_image, save_instances_viz, mbind, M_bind, write_file, lift.
  cbn [fst snd].
  destruct (coco_shapes_total shape_to_mask (img_height lf, img_width lf)
              (annotations lf)
              {| acc_masks := []; acc_segmentations := []; acc_clock := st.2 |}
              Hcorners) as [acc Hacc].
  rewrite Hacc.
  destruct (coco_shapes_segmentations shape_to_mask _ _
              {| acc_masks := []; acc_segmentations := []; acc_clock := st.2 |}
              [] _ Hord eq_refl eq_refl (λ _, eq_refl) Hacc)
    as (Hkm & Hks & _).
  cbn [acc_clock app] in Hkm, Hks.
  match goal with
  | |- context [coco_instances _ _ ?segs ?id ?anns ?entries] =>
      destruct (coco_instances_total segs id entries anns) as [anns' ->]
  end.
  { intros k Hk. rewrite Hkm, <- Hks in Hk.
    destruct (dict_get k (acc_segmentations acc)) eqn:Hget; [by eexists|].
    by apply dict_get_None in Hget. }
  destruct (retained_instances_total (acc_masks acc))
    as (rows & -> & Hids & Hnil).
  destruct rows as [|row rows].
  { exfalso. rewrite Hkm in Hnil.
    by apply (some_retained_key class_names st.2 (annotations lf) Hsome), Hnil. }
  cbn [unzip3 fst snd]. rewrite Hids. by eexists _, _.
Qed.

End CocoSuccess.

Section SwapCoco.
Variable shape_to_mask : nat * nat → list Point → string → Mask.
Hypothesis Hfree : corner_order_free shape_to_mask.

Lemma shape_mask_swap hw a :
  shape_to_mask hw (points (swap_rectangle a)) (shape_type (swap_rectangle a))
  = shape_to_mask hw (points a) (shape_type a).
Proof.
  unfold swap_rectangle. destruct (is_rectangle a) eqn:Hrect; [|done].
  apply String.eqb_eq in Hrect. unfold swap_corners.
  destruct (points a) as [|p [|q [|]]] eqn:Hpts; rewrite ?Hpts; try done.
  simpl. rewrite Hrect. apply Hfree.
Qed.

Lemma coco_shape_swap hw acc a :
  implb (is_rectangle a) (corners_ordered a) = true →
  coco_shape shape_to_mask hw acc (swap_rectangle a) =
  coco_shape shape_to_mask hw acc a.
Proof.
  intros Ha. unfold coco_shape, instance_of.
  rewrite shape_mask_swap, (segmentation_points_swap a Ha).
  by destruct (swap_rectangle_fields a) as (-> & _ & ->).
Qed.

Lemma coco_shapes_swap hw acc anns :
  rectangles_ordered anns = true →
  coco_shapes shape_to_mask hw acc (map swap_rectangle anns) =
  coco_shapes shape_to_mask hw acc anns.
Proof.
  revert acc. induction anns as [|a r IH]; intros acc; [done|].
  intros [Ha Hr]%andb_prop. cbn [map coco_shapes].
  rewrite (coco_shape_swap hw acc a Ha).
  destruct (coco_shape shape_to_mask hw acc a); [|done].
  cbn [outcome_bind]. by apply IH.
Qed.

Lemma coco_image_swap classes class_names st i lf :
  rectangles_ordered (annotations lf) = true →
  coco_image shape_to_mask classes class_names st (i, swap_rectangles lf) =
  coco_image shape_to_mask classes class_names st (i, lf).
Proof.
  intros Hlf. unfold coco_image, swap_rectangles, img_shape.
  cbn [fst snd base img_height img_width img_depth annotations].
  by rewrite (coco_shapes_swap _ _ _ Hlf).
Qed.

Lemma coco_loop_swap classes class_names imageList ids st s :
  Forall (λ lf, rectangles_ordered (annotations lf) = true) imageList →
  for_fold (coco_image shape_to_mask classes class_names)
    (zip ids (map swap_rectangles imageList)) st s =
  for_fold (coco_image shape_to_mask classes class_names)
    (zip ids imageList) st s.
Proof.
  intros Hall. revert ids st s.
  induction Hall as [|lf r Hlf Hr IH]; intros ids st s.
  - by destruct ids.
  - destruct ids as [|i ids]; [done|]. cbn [map zip zip_with for_fold].
    unfold mbind, M_bind. rewrite (coco_image_swap _ _ _ _ _ Hlf).
    destruct (coco_image _ _ _ st (i, lf) s) as [[st1|e] s1]; [|done].
    apply IH.
Qed.

Lemma onExportCOCO_swap imageList s :
  rectangles_ordered (getAllAnnotations imageList) = true →
  onExportCOCO shape_to_mask (map swap_rectangles imageList) s =
  onExportCOCO shape_to_mask imageList s.
Proof.
  intros Hord%rectangles_ordered_scan.
  rewrite !onExportCOCO_unfold, getAllAnnotations_swap.
  destruct (scan_swap (getAllAnnotations imageList)) as (-> & _ & ->).
  destruct (forallb _ _); [done|].
  unfold mbind, M_bind, enumerate. rewrite length_map.
  destruct (makedirs _ _) as [[[]|e] s1]; [|done].
  destruct (makedirs _ s1) as [[[]|e] s2]; [|done].
  destruct (makedirs _ s2) as [[[]|e] s3]; [|done].
  by rewrite coco_loop_swap.
Qed.

End SwapCoco.

Lemma onExportVOC_swap
    (annotations_to_label :
       nat * nat * nat → list Annotation → list (string * Z) → Raster * Raster)
    imageList s :
  rectangles_ordered (getAllAnnotations imageList) = true →
  forallb is_rectangle (getAllAnnotations imageList) = true →
  onExportVOC annotations_to_label (map swap_rectangles imageList) s =
  onExportVOC annotations_to_label imageList s.
Proof.
  intros Hord Hrect.
  rewrite !onExportVOC_unfold, getAllAnnotations_swap.
  unfold select_annotation_type.
  destruct (scan_swap (getAllAnnotations imageList)) as (-> & _ & ->).
  rewrite Hrect. unfold exportDetectionVOC.
  by rewrite detection_loop_swap.
Qed.

Lemma all_rectangles_ordered anns :
  rectangles_ordered anns = true →
  forallb is_rectangle anns = true →
  forallb corners_ordered anns = true.
Proof.
  induction anns as [|a r IH]; simpl; [done|].
  intros [Ha Hr]%andb_prop [Hra Hrr]%andb_prop.
  rewrite Hra in Ha. simpl in Ha. by rewrite Ha, IH.
Qed.

Lemma rectangles_ordered_part imageList :
  rectangles_ordered (getAllAnnotations imageList) = true →
  ∀ lf, lf ∈ imageList → rectangles_ordered (annotations lf) = true.
Proof. intros H%rectangles_ordered_scan. by apply Forall_forall. Qed.

Section CornerOrder.
Variable annotations_to_label :
  nat * nat * nat → list Annotation → list (string * Z) → Raster * Raster.
Variable shape_to_mask : nat * nat → list Point → string → Mask.


End CornerOrder.

Lemma spec_shape_to_mask_corner_order_free :
  corner_order_free spec_shape_to_mask.
Proof.
  intros hw [[x0|f0] [y0|g0]] [[x1|f1] [y1|g1]]; try done.
  unfold spec_shape_to_mask. simpl.
  by rewrite (Z.min_comm x1 x0), (Z.max_comm x1 x0),
    (Z.min_comm y1 y0), (Z.max_comm y1 y0).
Qed.



(** ** The instance raster of the VOC segmentation export *)

Lemma raster_max_pixel r y x v :
  raster_get r y x = Some v → is_Some (raster_max r).
Proof.
  unfold raster_get, raster_max. intros Hget.
  destruct (r !! y) as [row|] eqn:Hrow; simpl in Hget; [|done].
  assert (Hin : In v (concat r)).
  { apply in_concat. exists row.
    split; apply list_elem_of_In; by eapply list_elem_of_lookup_2. }
  destruct (concat r); [done|by eexists].
Qed.

Lemma ins_paths_distinct imageList :
  NoDup (map base imageList) → NoDup (map ins_path imageList).
Proof.
  induction imageList as [|lf r IH]; simpl; [constructor|].
  intros [Hlf Hr]%NoDup_cons. apply NoDup_cons. split; [|by apply IH].
  intros Hin. apply Hlf.
  apply list_elem_of_In, in_map_iff in Hin as (lf' & Hpath & Hin').
  apply list_elem_of_In, in_map_iff. exists lf'. split; [|done].
  unfold ins_path in Hpath. injection Hpath as Hpath.
  by apply append_suffix_inj in Hpath.
Qed.

Section SegmentationExport.
Variable annotations_to_label :
  nat * nat * nat → list Annotation → list (string * Z) → Raster * Raster.

Lemma segmentation_image_returns classes class_names lf s :
  let lbl := annotations_to_label (img_shape lf) (annotations lf) classes in
  (∃ y x, is_Some (raster_get lbl.2 y x)) →
  ∃ s',
    segmentation_image annotations_to_label classes class_names lf s
      = (Ok (), s') ∧
    s' !! ins_path lf = Some (File (NpyFile (zero_where_ignored lbl.1 lbl.2))) ∧
    ∀ lf', ins_path lf' ≠ ins_path lf → s' !! ins_path lf' = s !! ins_path lf'.
Proof.
  intros lbl (y & x & [v Hv]).
  assert (Hmax : is_Some (raster_max (zero_where_ignored lbl.1 lbl.2))).
  { apply (raster_max_pixel _ y x
             (if bool_decide (raster_get lbl.1 y x = Some (-1)) then 0 else v)).
    rewrite zero_where_ignored_get. unfold zeroed_at. by rewrite Hv. }
  destruct Hmax as [top Htop].
  unfold segmentation_image, ins_path, mbind, M_bind, write_file.
  cbn zeta. fold lbl. rewrite Htop. eexists. split; [done|]. split.
  - rewrite lookup_insert_ne by done. apply lookup_insert_eq.
  - intros lf' Hne. rewrite lookup_insert_ne by done.
    rewrite (lookup_insert_ne _ _ _ _ (λ Heq, Hne (eq_sym Heq))).
    by rewrite !lookup_insert_ne by done.
Qed.

Lemma segmentation_export_instances imageList s :
  let lbl := λ lf,
    annotations_to_label (img_shape lf) (annotations lf)
      (build_classes (getAllAnnotations imageList)) in
  select_annotation_type (getAllAnnotations imageList) = Segmentation →
  NoDup (map base imageList) →
  slot_clear ["VOC"] s →
  (∀ lf, lf ∈ imageList → ∃ y x, is_Some (raster_get (lbl lf).2 y x)) →
  ∃ s',
    onExportVOC annotations_to_label imageList s = (Ok RetNone, s') ∧
    ∀ lf, lf ∈ imageList →
      s' !! ins_path lf =
      Some (File (NpyFile (zero_where_ignored (lbl lf).1 (lbl lf).2))).
Proof.
  intros lbl Hseg Hbases Hclear Hpixels.
  assert (Hsub : ∀ r, under ["VOC"] ("VOC" :: r)).
  { intros r. by exists r. }
  assert (Hfree : ∀ q, under ["VOC"] q → reset_tree ["VOC"] s !! q = None).
  { intros q Hq. by apply reset_tree_clear. }
  rewrite onExportVOC_unfold, Hseg.
  unfold exportSegmentationVOC, mbind, M_bind.
  rewrite makedirs_free by apply Hfree, Hsub.
  do 7 (rewrite makedirs_free
          by (rewrite !lookup_insert_ne by done; apply Hfree, Hsub)).
  match goal with
  | |- context [for_each ?body _ ?s0] =>
      destruct (for_each_one_per_item body ins_path
                  (λ lf, File (NpyFile
                                 (zero_where_ignored (lbl lf).1 (lbl lf).2)))
                  imageList s0) as (s' & Hrun & Hall & _)
  end.
  - intros lf s0 Hlf.
    by apply segmentation_image_returns, Hpixels.
  - by apply ins_paths_distinct.
  - rewrite Hrun. by exists s'.
Qed.

End SegmentationExport.





(** ** Detection export of an "__ignore__" box *)

Lemma detection_rows_labels classes anns :
  Forall (λ a, is_Some (dict_get (label a) classes)) anns →
  two_points anns = true →
  ∃ rows, detection_rows classes anns = Ok rows ∧
          map Some (map row_label rows) =
          map (λ a, dict_get (label a) classes) anns.
Proof.
  induction anns as [|a r IH]; simpl.
  - by exists [].
  - intros [[class_id Hid] Hr]%Forall_cons [Hta Htr]%andb_prop.
    destruct (IH Hr Htr) as (rows & Hrows & Hlabels).
    unfold detection_row. rewrite Hid.
    destruct (points a) as [|[x0 y0] [|[x1 y1] [|]]]; try done.
    destruct (sorted2 x0 x1), (sorted2 y0 y1). rewrite Hrows.
    eexists. split; [done|]. simpl. by rewrite Hlabels.
Qed.

Lemma ignored_label_drawn classes anns (ids : list Z) :
  dict_get "__ignore__" classes = Some (-1) →
  none_ignored anns = false →
  map Some ids = map (λ a, dict_get (label a) classes) anns →
  forallb (λ l, 0 <=? l) ids = false.
Proof.
  intros Hignore. revert ids.
  induction anns as [|a r IH]; intros [|l ids]; simpl; try done.
  intros Hsome [= Hl Hids].
  destruct (String.eqb (label a) "__ignore__") eqn:Ha; simpl in Hsome.
  - apply String.eqb_eq in Ha. rewrite Ha, Hignore in Hl.
    by injection Hl as ->.
  - rewrite (IH ids Hsome Hids). apply andb_false_r.
Qed.

Lemma registry_ignore_id anns :
  dict_get "__ignore__" (build_classes anns) = Some (-1).
Proof. by rewrite build_classes_spec. Qed.

(** X10: in a scope whose annotations all have two points, an image with
    an annotation labelled "__ignore__" stops the VOC detection export:
    the class id -1 reaches the visualization, whose assertion fails, so
    the loop body raises [AssertionError] after the image copy and before
    the visualization and the annotation document are written. *)
Theorem ignored_box_stops_detection (imageList : list LabelFile)
    (lf : LabelFile) (s : gmap path Node) :
  lf ∈ imageList →
  two_points (annotations lf) = true →
  none_ignored (annotations lf) = false →
  detection_image (build_classes (getAllAnnotations imageList)) lf s =
  (Raised AssertionError,
   <[ ["VOC"; "JPEGImages"; base lf +:+ ".jpg"] :=
        File (ImageFile (img_shape lf)) ]> s).
Proof.
  intros Hlf Htwo Hignored.
  destruct (detection_rows_labels
              (build_classes (getAllAnnotations imageList)) (annotations lf))
    as (rows & Hrows & Hlabels); [|done|].
  { apply Forall_forall. intros a Ha.
    pose proof (registry_covers_scan_facts (getAllAnnotations imageList))
      as Hreg.
    rewrite Forall_forall in Hreg. apply Hreg.
    by eapply annotations_in_scan. }
  unfold detection_image, save_instances_viz, mbind, M_bind, lift, write_file.
  rewrite Hrows.
  by rewrite (ignored_label_drawn _ _ _ (registry_ignore_id _) Hignored Hlabels).
Qed.

Lemma ignored_box_stops_detection_witness :
  detection_image (build_classes (getAllAnnotations [box_and_ignored_box]))
    box_and_ignored_box earlier_voc_tree =
  (Raised AssertionError,
   <[ ["VOC"; "JPEGImages"; "a.jpg"] := File (ImageFile (8, 8, 3)%nat) ]>
     earlier_voc_tree).
Proof.
  apply (ignored_box_stops_detection [box_and_ignored_box]
           box_and_ignored_box earlier_voc_tree).
  - by apply list_elem_of_singleton.
  - reflexivity.
  - reflexivity.
Defined.
